(** * dask_sql.context: the registry and the query orchestrator

    A shallow embedding of [src/dask_sql/context.py] (class [Context]) and
    the properties of its registration methods and of [Context.sql].

    Python objects that callers can alias and mutate (dask dataframes) live
    in an object store; everything the source treats as a value is a value.
    The Java planner, the plan converter and the type mapping are
    collaborators that are not part of this file: they are the variables of
    the section below. *)

From stdpp Require Import base tactics option list strings.

Set Default Proof Using "Type".

(** ** Python dictionaries

    [self.tables], [self.functions] and the mapping handed to
    [ColumnContainer.rename] are Python dicts. A dict iterates in insertion
    order and assigning to an existing key keeps that key's place, which is
    what [_prepare_schema] observes through [.items()]; so a dict is an
    ordered association list whose keys are kept distinct by [PyDict.set]. *)

Module PyDict.

Definition dict (V : Type) : Type := list (string * V).

Definition empty {V : Type} : dict V := [].

Fixpoint get {V : Type} (k : string) (d : dict V) : option V :=
  match d with
  | [] => None
  | (k', v) :: d' => if decide (k' = k) then Some v else get k d'
  end.

(** [d[k] = v] *)
Fixpoint set {V : Type} (k : string) (v : V) (d : dict V) : dict V :=
  match d with
  | [] => [(k, v)]
  | (k', v') :: d' =>
      if decide (k' = k) then (k, v) :: d' else (k', v') :: set k v d'
  end.

Definition keys {V : Type} (d : dict V) : list string := d.*1.

(** [d.items()] *)
Definition items {V : Type} (d : dict V) : list (string * V) := d.

End PyDict.

(** ** [str.startswith] *)

Definition startswith (s pre : string) : bool := String.prefix pre s.

(** Truth value of [select_names] in [if select_names:]: [None] and the
    empty list are false. *)
Definition truthy {A : Type} (o : option (list A)) : bool :=
  match o with
  | Some (_ :: _) => true
  | Some [] | None => false
  end.

Section context.

(** *** Collaborators: types *)

(** Python types and numpy dtypes, as stored in registrations and exposed
    by a series. *)
Variable DType : Type.
(** The planner's SQL type names. *)
Variable SqlType : Type.
(** The (lazy) contents of one dataframe column. *)
Variable SeriesData : Type.
(** Python callables and [dd.Aggregation] objects. *)
Variable Callable : Type.
(** The planner's parse tree, its plan nodes and its SQL dialect. *)
Variables SqlNode RelNode Dialect : Type.

(** [str.lower]. *)
Variable lower : string → string.

(** Modelled from the spec: [dask_sql.mappings.python_to_sql_type] is
    defined outside [context.py]. Spec 4.3: a deterministic mapping from a
    native type to a SQL type; a type without a mapping fails with a
    [TypeMappingError]. [None] stands for that failure. *)
Variable python_to_sql_type : DType → option SqlType.

(** ** Dataframes and the object store *)

Record Series := { dtype : DType; values : SeriesData }.

(** A dask dataframe as [Context] uses it: [df.columns] and [df[column]]. *)
Record DataFrame := {
  columns : list string;
  getitem : string → Series;
}.

(** Identity of a dataframe object. *)
Definition loc : Type := nat.

(** The Python heap, restricted to dataframe objects: the objects
    allocated so far are the ones below [next_loc]. *)
Record Store := {
  objects : loc → DataFrame;
  next_loc : loc;
}.

Definition allocated (st : Store) (l : loc) : Prop := l < next_loc st.

Definition deref (st : Store) (l : loc) : DataFrame := objects st l.

Definition alloc (df : DataFrame) (st : Store) : loc * Store :=
  (next_loc st,
   {| objects := λ l, if decide (l = next_loc st) then df else objects st l;
      next_loc := S (next_loc st) |}).

(** An in-place change of the object at [l], as a caller holding a
    reference to it can make (for instance [df["c"] = ...]). *)
Definition mutate (l : loc) (df : DataFrame) (st : Store) : Store :=
  {| objects := λ l', if decide (l' = l) then df else objects st l';
     next_loc := next_loc st |}.

(** ** Column and data containers *)

(** Modelled from the spec: [dask_sql.datacontainer.ColumnContainer] is
    defined outside [context.py]. Spec 3: an ordered mapping from Logical
    Column Name to Physical Column Label, in the declared output order;
    created from a dataframe's columns, each naming itself. That the
    Logical Names are distinct is assumed where a property needs it. *)
Record ColumnContainer := {
  mapping : list (string * string);
}.

(** Modelled from the spec: the constructor [ColumnContainer(df.columns)]
    (spec 3, created fresh at table registration). *)
Definition ColumnContainer_of (cols : list string) : ColumnContainer :=
  {| mapping := (λ c, (c, c)) <$> cols |}.

(** Modelled from the spec: [cc.columns], the ordered sequence of Logical
    Names (spec 4.1). *)
Definition cc_columns (cc : ColumnContainer) : list string := (mapping cc).*1.

(** Modelled from the spec: [cc.rename(mapping)] (spec 4.1): same Physical
    Labels, Logical Names substituted per the mapping, any Logical Name not
    present in the mapping kept unchanged, order preserved. *)
Definition rename (m : PyDict.dict string) (cc : ColumnContainer) : ColumnContainer :=
  {| mapping := (λ lp, (default lp.1 (PyDict.get lp.1 m), lp.2)) <$> mapping cc |}.

(** Modelled from the spec: [dask_sql.datacontainer.DataContainer], the
    pair of a dataframe (an object reference) and a Column Container. *)
Record DataContainer := {
  df : loc;
  column_container : ColumnContainer;
}.

(** ** The registries *)

Record FunctionDescription := {
  f : Callable;
  parameters : list (string * DType);
  return_type : DType;
  aggregation : bool;
}.

Record Context := {
  tables : PyDict.dict DataContainer;
  functions : PyDict.dict FunctionDescription;
  aggregations : PyDict.dict Callable;
}.

(** [Context.__init__]; the plugin registrations it performs are on the
    converters, outside this class. *)
Definition init : Context :=
  {| tables := PyDict.empty;
     functions := PyDict.empty;
     aggregations := PyDict.empty |}.

(** ** The schema handed to the planner *)

(** Modelled from the spec: the Java classes [DaskTable], [DaskScalarFunction],
    [DaskAggregateFunction] and [DaskSchema] are defined outside
    [context.py]. Spec 3 (Schema): table names with their column name/type
    lists, function names with parameter and return types, split into
    scalar and aggregate. Each object records the [add...] calls made on
    it, in order. *)
Record DaskTable := {
  table_name : string;
  table_columns : list (string * SqlType);
}.

Inductive FunctionKind := ScalarFunction | AggregateFunction.

Record DaskFunction := {
  function_kind : FunctionKind;
  function_name : string;
  function_return_type : SqlType;
  function_parameters : list (string * SqlType * bool);
}.

Record DaskSchema := {
  schema_name : string;
  schema_tables : list DaskTable;
  schema_functions : list DaskFunction;
}.

Definition addColumn (c : string) (t : SqlType) (tb : DaskTable) : DaskTable :=
  {| table_name := table_name tb; table_columns := table_columns tb ++ [(c, t)] |}.

Definition addParameter (n : string) (t : SqlType) (optional : bool)
    (fn : DaskFunction) : DaskFunction :=
  {| function_kind := function_kind fn;
     function_name := function_name fn;
     function_return_type := function_return_type fn;
     function_parameters := function_parameters fn ++ [(n, t, optional)] |}.

Definition addTable (tb : DaskTable) (s : DaskSchema) : DaskSchema :=
  {| schema_name := schema_name s;
     schema_tables := schema_tables s ++ [tb];
     schema_functions := schema_functions s |}.

Definition addFunction (fn : DaskFunction) (s : DaskSchema) : DaskSchema :=
  {| schema_name := schema_name s;
     schema_tables := schema_tables s;
     schema_functions := schema_functions s ++ [fn] |}.

(** ** Exceptions *)

(** The exceptions of the Java side, as Python sees them. [sql] catches the
    first two. *)
Inductive JavaException :=
  | SqlParseException (msg : string)
  | ValidationException (msg : string)
  | JavaError (msg : string).

(** [e.message()] *)
Definition message (e : JavaException) : string :=
  match e with
  | SqlParseException m | ValidationException m | JavaError m => m
  end.

(** [isinstance(e, (ValidationException, SqlParseException))] *)
Definition is_parse_or_validation (e : JavaException) : bool :=
  match e with
  | SqlParseException _ | ValidationException _ => true
  | JavaError _ => false
  end.

Inductive Exception :=
  (** a Java exception crossing into Python *)
  | Java (e : JavaException)
  (** raised by [python_to_sql_type] for a type without a mapping *)
  | TypeMappingError (t : DType)
  (** raised by [DataContainer.assign] (spec 4.2) *)
  | SchemaError (logical physical : string)
  (** raised by a plugin of the plan converter *)
  | ConversionError (msg : string)
  (** [ParsingException(sql, message)] with its [__cause__] *)
  | ParsingException (sql message : string) (cause : option JavaException)
  (** any other Python exception, such as an [IndexError] *)
  | PythonError (description : string).

(** ** Computations

    [Result] is a computation that may raise; [M] is a sequence of Python
    statements: it may raise, it may allocate objects, and its calls into
    the planner and the converter are recorded, in order, in a trace. *)

Definition Result (A : Type) : Type := Exception + A.

#[local] Instance Result_ret : MRet Result := λ _ x, inr x.
#[local] Instance Result_bind : MBind Result := λ _ _ k m,
  match m with inl e => inl e | inr x => k x end.

Inductive event :=
  | NewGenerator (schema : DaskSchema)
  | GetSqlNode (sql : string)
  | GetValidatedNode
  | GetRelationalAlgebra
  | GetOptimizedRelationalAlgebra
  | GetDialect
  | Convert
  | Print (s : string).

Record World := {
  store : Store;
  trace : list event;
}.

Definition M (A : Type) : Type := World → Result A * World.

#[local] Instance M_ret : MRet M := λ _ x w, (inr x, w).
#[local] Instance M_bind : MBind M := λ _ _ k m w,
  match m w with
  | (inl e, w') => (inl e, w')
  | (inr x, w') => k x w'
  end.

Definition raise {A : Type} (e : Exception) : M A := λ w, (inl e, w).

(** [try: body except Exception as e: handler(e)] *)
Definition try_except {A : Type} (body : M A) (handler : Exception → M A) : M A :=
  λ w, match body w with
       | (inl e, w') => handler e w'
       | (inr x, w') => (inr x, w')
       end.

(** A computation that only reads the object store. *)
Definition reading {A : Type} (g : Store → Result A) : M A :=
  λ w, (g (store w), w).

(** A call into the Java side: recorded, and its exception, if any,
    raised in Python. *)
Definition call {A : Type} (ev : event) (r : JavaException + A) : M A :=
  λ w, (match r with inl e => inl (Java e) | inr x => inr x end,
        {| store := store w; trace := trace w ++ [ev] |}).

(** Loops that carry the object they fill. *)
Fixpoint for_each {A S : Type} (l : list A) (body : A → S → Result S) (s : S)
    : Result S :=
  match l with
  | [] => mret s
  | x :: l' => s' ← body x s; for_each l' body s'
  end.

(** ** Registration *)

(** [df.copy()]: a new object with the contents the receiver has now. *)
Definition copy (l : loc) : M loc :=
  λ w, let '(l', st') := alloc (deref (store w) l) (store w) in
       (inr l', {| store := st'; trace := trace w |}).

Definition register_dask_table (self : Context) (df : loc) (name : string)
    : M Context :=
  df_copy ← copy df;
  cols ← reading (λ st, mret (columns (deref st df)));
  mret {| tables :=
            PyDict.set (lower name)
              {| df := df_copy; column_container := ColumnContainer_of cols |}
              (tables self);
          functions := functions self;
          aggregations := aggregations self |}.

Definition register_function (self : Context) (f : Callable) (name : string)
    (parameters : list (string * DType)) (return_type : DType) : Context :=
  {| tables := tables self;
     functions :=
       PyDict.set (lower name)
         {| f := f; parameters := parameters; return_type := return_type;
            aggregation := false |}
         (functions self);
     aggregations := aggregations self |}.

Definition register_aggregation (self : Context) (f : Callable) (name : string)
    (parameters : list (string * DType)) (return_type : DType) : Context :=
  {| tables := tables self;
     functions :=
       PyDict.set (lower name)
         {| f := f; parameters := parameters; return_type := return_type;
            aggregation := true |}
         (functions self);
     aggregations := aggregations self |}.

(** ** Building the schema *)

Definition to_sql_type (t : DType) : Result SqlType :=
  match python_to_sql_type t with
  | Some sql_type => inr sql_type
  | None => inl (TypeMappingError t)
  end.

Definition _add_parameters_from_description
    (function_description : FunctionDescription) (dask_function : DaskFunction)
    : Result DaskFunction :=
  for_each (parameters function_description)
    (λ parameter dask_function,
       let '(param_name, param_type) := parameter in
       sql_param_type ← to_sql_type param_type;
       mret (addParameter param_name sql_param_type false dask_function))
    dask_function.

(** The body of the loop over [self.tables.items()]: the [DaskTable] of
    one entry. *)
Definition table_of (st : Store) (name : string) (dc : DataContainer)
    : Result DaskTable :=
  let table := {| table_name := name; table_columns := [] |} in
  let df := deref st (df dc) in
  for_each (columns df)
    (λ column table,
       let data_type := dtype (getitem df column) in
       sql_data_type ← to_sql_type data_type;
       mret (addColumn column sql_data_type table))
    table.

(** The body of the loop over [self.functions.items()]: the function of
    one entry. *)
Definition function_of (name : string) (function_description : FunctionDescription)
    : Result DaskFunction :=
  sql_return_type ← to_sql_type (return_type function_description);
  let dask_function :=
    {| function_kind :=
         if aggregation function_description
         then AggregateFunction else ScalarFunction;
       function_name := name;
       function_return_type := sql_return_type;
       function_parameters := [] |} in
  _add_parameters_from_description function_description dask_function.

(** [_prepare_schema] reads the registries and the dataframes they refer
    to; it is a function of the context and the store as they are when it
    is called. *)
Definition _prepare_schema (self : Context) (st : Store) : Result DaskSchema :=
  let schema :=
    {| schema_name := "schema"; schema_tables := []; schema_functions := [] |} in
  schema ← for_each (PyDict.items (tables self))
    (λ '(name, dc) schema,
       table ← table_of st name dc;
       mret (addTable table schema))
    schema;
  for_each (PyDict.items (functions self))
    (λ '(name, function_description) schema,
       dask_function ← function_of name function_description;
       mret (addFunction dask_function schema))
    schema.

(** ** The planner and the converter *)

(** [RelationalAlgebraGenerator(schema)]: the methods [_get_ral] calls.
    The first four can throw. *)
Record RelationalAlgebraGenerator := {
  getSqlNode : string → JavaException + SqlNode;
  getValidatedNode : SqlNode → JavaException + SqlNode;
  getRelationalAlgebra : SqlNode → JavaException + RelNode;
  getOptimizedRelationalAlgebra : RelNode → JavaException + RelNode;
  getDialect : Dialect;
  getRelationalAlgebraString : RelNode → string;
}.

Variable new_RelationalAlgebraGenerator : DaskSchema → RelationalAlgebraGenerator.

(** [get_java_class(node)], [node.getSelectList()] and
    [str(node.toSqlString(dialect))]; the select list is the one the node
    has when [_get_ral] reads it, after validation. *)
Variable get_java_class : SqlNode → string.
Variable getSelectList : SqlNode → list SqlNode.
Variable toSqlString : SqlNode → Dialect → string.

(** [RelConverter.convert(rel, context=self)]: the plugins read the
    context and the dataframes, may create dataframes, and may raise. *)
Variable RelConverter_convert :
  RelNode → Context → Store → Result (DataContainer * Store).

Definition convert (rel : RelNode) (self : Context) : M DataContainer :=
  λ w, let tr := trace w ++ [Convert] in
       match RelConverter_convert rel self (store w) with
       | inl e => (inl e, {| store := store w; trace := tr |})
       | inr (dc, st') => (inr dc, {| store := st'; trace := tr |})
       end.

Definition print (s : string) : M unit :=
  λ w, (inr (), {| store := store w; trace := trace w ++ [Print s] |}).

Definition _get_ral (self : Context) (sql : string) (debug : bool)
    : M (RelNode * option (list string)) :=
  schema ← reading (_prepare_schema self);
  generator ← call (NewGenerator schema) (inr (new_RelationalAlgebraGenerator schema));
  sqlNode ← call (GetSqlNode sql) (getSqlNode generator sql);
  validatedSqlNode ← call GetValidatedNode (getValidatedNode generator sqlNode);
  nonOptimizedRelNode ←
    call GetRelationalAlgebra (getRelationalAlgebra generator validatedSqlNode);
  rel ← call GetOptimizedRelationalAlgebra
          (getOptimizedRelationalAlgebra generator nonOptimizedRelNode);
  default_dialect ← call GetDialect (inr (getDialect generator));
  let select_names :=
    if decide (get_java_class sqlNode = "org.apache.calcite.sql.SqlSelect")
    then Some ((λ s, toSqlString s default_dialect) <$> getSelectList sqlNode)
    else None in
  (if debug then print (getRelationalAlgebraString generator rel) else mret ());;
  mret (rel, select_names).

(** ** Humanizing the column names and [sql] *)

(** The dict comprehension of [sql]:
    [{df_col: df_col if not df_col.startswith("EXPR$") else select_name
      for df_col, select_name in zip(cc.columns, select_names)}]. *)
Definition rename_mapping (cols select_names : list string) : PyDict.dict string :=
  foldl (λ d '(df_col, select_name),
           PyDict.set df_col
             (if negb (startswith df_col "EXPR$") then df_col else select_name) d)
        PyDict.empty (zip cols select_names).

(** The container [sql] hands to [assign]. *)
Definition humanize (dc : DataContainer) (select_names : option (list string))
    : DataContainer :=
  if truthy select_names then
    let cc := column_container dc in
    let cc := rename (rename_mapping (cc_columns cc) (default [] select_names)) cc in
    {| df := df dc; column_container := cc |}
  else dc.

(** Modelled from the spec: [DataContainer.assign] is defined outside
    [context.py]. Spec 4.2: a dataframe whose columns are the current
    Logical Names, in the declared order, each holding the data of its
    Physical Label; a [SchemaError] if a Logical Name maps to a Physical
    Label the dataframe does not have. *)
Definition assign (dc : DataContainer) : M loc :=
  λ w, let frame := deref (store w) (df dc) in
       let cc := column_container dc in
       match list_find (λ lp, lp.2 ∉ columns frame) (mapping cc) with
       | Some (_, (logical, physical)) => (inl (SchemaError logical physical), w)
       | None =>
           let result :=
             {| columns := cc_columns cc;
                getitem := λ c, getitem frame (default c (PyDict.get c (mapping cc))) |} in
           let '(l, st') := alloc result (store w) in
           (inr l, {| store := st'; trace := trace w |})
       end.

(** The body of the [try] statement of [sql]. *)
Definition sql_try (self : Context) (sql : string) (debug : bool)
    : M (DataContainer * option (list string)) :=
  '(rel, select_names) ← _get_ral self sql debug;
  dc ← convert rel self;
  mret (dc, select_names).

(** The constructor call [ParsingException(sql, str(e.message()))].
    [dask_sql.utils.ParsingException] is defined outside [context.py]: its
    [__init__] builds the message by locating the reported position in
    the query text, and it can raise instead of returning (an [IndexError]
    when the text has no such line, as for the empty query). [None]: the
    constructor returns; [Some x]: it raises [x]. *)
Variable ParsingException_init : string → string → option Exception.

(** Its [except (ValidationException, SqlParseException) as e] clause;
    any other exception propagates. The exception is constructed before
    it is raised, so an exception of the constructor is what leaves the
    clause. *)
Definition sql_except {A : Type} (sql : string) (debug : bool) (e : Exception) : M A :=
  match e with
  | Java je =>
      if is_parse_or_validation je then
        let from_chained_exception := if debug then Some je else None in
        match ParsingException_init sql (message je) with
        | None => raise (ParsingException sql (message je) from_chained_exception)
        | Some x => raise x
        end
      else raise e
  | _ => raise e
  end.

Definition sql (self : Context) (sql : string) (debug : bool) : M loc :=
  '(dc, select_names) ← try_except (sql_try self sql debug) (sql_except sql debug);
  assign (humanize dc select_names).

(** ** Sequences of calls on one context *)

Inductive operation :=
  | RegisterDaskTable (l : loc) (name : string)
  | RegisterFunction (g : Callable) (name : string)
      (params : list (string * DType)) (ret : DType)
  | RegisterAggregation (g : Callable) (name : string)
      (params : list (string * DType)) (ret : DType)
  | Sql (query : string) (debug : bool).

(** One call: the context and the world after it. [sql] assigns to no
    attribute of [self], so the three registries have after a query the
    keys they had, and its result or exception goes to the caller. What
    the converter does to the column containers the table registry refers
    to is not followed: the column container of an entry is spoken of
    only over calls that are no query. *)
Definition perform (op : operation) (self : Context) (w : World) : Context * World :=
  match op with
  | RegisterDaskTable l name =>
      match register_dask_table self l name w with
      | (inr self', w') => (self', w')
      | (inl _, w') => (self, w')
      end
  | RegisterFunction g name params ret =>
      (register_function self g name params ret, w)
  | RegisterAggregation g name params ret =>
      (register_aggregation self g name params ret, w)
  | Sql query debug => (self, (sql self query debug w).2)
  end.

Fixpoint run (ops : list operation) (self : Context) (w : World) : Context * World :=
  match ops with
  | [] => (self, w)
  | op :: ops' => let '(self', w') := perform op self w in run ops' self' w'
  end.

(** ** Specifications *)

(** The entry [register_dask_table] stores for the dataframe at [l]. *)
Definition table_entry (w : World) (l : loc) : DataContainer :=
  {| df := next_loc (store w);
     column_container := ColumnContainer_of (columns (deref (store w) l)) |}.

(** What [d[k] = v] does to the keys of [d]: an existing key keeps its
    place (its entry is replaced), a new key goes to the end. *)
Definition replaced_or_appended {V : Type} (k : string) (d d' : PyDict.dict V) : Prop :=
  PyDict.keys d' =
    if decide (k ∈ PyDict.keys d) then PyDict.keys d else PyDict.keys d ++ [k].

(** The parser/validator throws [e] on query [q]: in parsing, in
    validation, in the conversion to a plan or in its optimization, the
    earlier stages having succeeded. *)
Inductive planner_raises (g : RelationalAlgebraGenerator) (q : string)
    (e : JavaException) : Prop :=
  | raises_parsing :
      getSqlNode g q = inl e → planner_raises g q e
  | raises_validating n :
      getSqlNode g q = inr n → getValidatedNode g n = inl e →
      planner_raises g q e
  | raises_planning n v :
      getSqlNode g q = inr n → getValidatedNode g n = inr v →
      getRelationalAlgebra g v = inl e → planner_raises g q e
  | raises_optimizing n v r :
      getSqlNode g q = inr n → getValidatedNode g n = inr v →
      getRelationalAlgebra g v = inr r →
      getOptimizedRelationalAlgebra g r = inl e → planner_raises g q e.

(** The class name [_get_ral] compares with. *)
Definition SqlSelect : string := "org.apache.calcite.sql.SqlSelect".

(** The schema's table for a registry entry: the entry's name, and for
    each column of the registered dataframe, in order, its label with the
    SQL type of its dtype. *)
Definition describes_table (st : Store) (entry : string * DataContainer)
    (tb : DaskTable) : Prop :=
  let frame := deref st (df entry.2) in
  table_name tb = entry.1 ∧
  Forall2 (λ c ct, ct.1 = c ∧
                   python_to_sql_type (dtype (getitem frame c)) = Some ct.2)
    (columns frame) (table_columns tb).

(** The schema's function for a registry entry: the entry's name, its kind
    by the entry's flag, the SQL type of its return type, and its
    parameters in order with the SQL types of their types, none of them
    optional. *)
Definition describes_function (entry : string * FunctionDescription)
    (fn : DaskFunction) : Prop :=
  function_name fn = entry.1 ∧
  function_kind fn =
    (if aggregation entry.2 then AggregateFunction else ScalarFunction) ∧
  python_to_sql_type (return_type entry.2) = Some (function_return_type fn) ∧
  Forall2 (λ p sp, sp.1.1 = p.1 ∧ python_to_sql_type p.2 = Some sp.1.2 ∧
                   sp.2 = false)
    (parameters entry.2) (function_parameters fn).

(** The schema is the image of the registries: one table per table entry
    and one function per function entry, in the registries' order. *)
Definition describes (self : Context) (st : Store) (schema : DaskSchema) : Prop :=
  schema_name schema = "schema" ∧
  Forall2 (describes_table st) (PyDict.items (tables self)) (schema_tables schema) ∧
  Forall2 describes_function (PyDict.items (functions self)) (schema_functions schema).

(** A registered column, return or parameter type without a SQL type. *)
Definition has_unmappable_type (self : Context) (st : Store) : Prop :=
  (∃ name dc c,
      (name, dc) ∈ tables self ∧ c ∈ columns (deref st (df dc)) ∧
      python_to_sql_type (dtype (getitem (deref st (df dc)) c)) = None) ∨
  (∃ name fd,
      (name, fd) ∈ functions self ∧
      (python_to_sql_type (return_type fd) = None ∨
       ∃ p, p ∈ parameters fd ∧ python_to_sql_type p.2 = None)).

(** The failure of a type without a mapping. *)
Definition is_type_mapping_error (e : Exception) : Prop :=
  ∃ t, e = TypeMappingError t ∧ python_to_sql_type t = None.

(** A computation only adds to the trace. *)
Definition extends {A : Type} (m : M A) : Prop :=
  ∀ w, ∃ evs, trace (m w).2 = trace w ++ evs.

(** Run from [w], the first thing a computation records is [ev]. *)
Definition records_first {A : Type} (ev : event) (m : M A) (w : World) : Prop :=
  ∃ evs, trace (m w).2 = trace w ++ ev :: evs.

(** The spec's sentence on humanized names, read over all positions: the final
    name of every [EXPR$] column is the captured name of its position, and
    every other column keeps its name. [cols] are the converter's Logical
    Names, [out] the ones handed to [assign]. *)
Definition renames_every_synthetic_name (cols names out : list string) : Prop :=
  ∀ i c, cols !! i = Some c →
    if startswith c "EXPR$"
    then ∃ n, names !! i = Some n ∧ out !! i = Some n
    else out !! i = Some c.

(** The function-registry entry a call writes, with its key. *)
Definition registered_function (op : operation)
    : option (string * FunctionDescription) :=
  match op with
  | RegisterFunction g name params ret =>
      Some (lower name,
            {| f := g; parameters := params; return_type := ret;
               aggregation := false |})
  | RegisterAggregation g name params ret =>
      Some (lower name,
            {| f := g; parameters := params; return_type := ret;
               aggregation := true |})
  | RegisterDaskTable _ _ | Sql _ _ => None
  end.

(** The entry under [k] after the calls [ops], given the one before them:
    that of the last call that registers a function or aggregation under
    [k], if there is one. *)
Fixpoint last_registration (k : string) (ops : list operation)
    (before : option FunctionDescription) : option FunctionDescription :=
  match ops with
  | [] => before
  | op :: ops' =>
      last_registration k ops'
        match registered_function op with
        | Some (k', fd) => if decide (k' = k) then Some fd else before
        | None => before
        end
  end.

(** The call is a query. *)
Definition is_query (op : operation) : bool :=
  match op with
  | Sql _ _ => true
  | _ => false
  end.

(** The table-registry key a call writes. *)
Definition registered_table_key (op : operation) : option string :=
  match op with
  | RegisterDaskTable _ name => Some (lower name)
  | _ => None
  end.

(** [t] is the dtype of a column of a registered table. *)
Definition column_type (self : Context) (st : Store) (t : DType) : Prop :=
  ∃ name dc c,
    (name, dc) ∈ tables self ∧ c ∈ columns (deref st (df dc)) ∧
    t = dtype (getitem (deref st (df dc)) c).

(** [t] is the return type or a parameter type of a registered function. *)
Definition function_type (self : Context) (t : DType) : Prop :=
  ∃ name fd,
    (name, fd) ∈ functions self ∧
    (t = return_type fd ∨ ∃ p, p ∈ parameters fd ∧ t = p.2).

(** A computation leaves the dataframe objects that exist when it starts
    as they are, and frees none. *)
Definition keeps_objects {A : Type} (m : M A) : Prop :=
  ∀ w, next_loc (store w) ≤ next_loc (store (m w).2) ∧
       ∀ l, allocated (store w) l → deref (store (m w).2) l = deref (store w) l.

(** The plugins of the converter create dataframes and change none. *)
Definition converter_keeps_objects : Prop :=
  ∀ rel self st dc st',
    RelConverter_convert rel self st = inr (dc, st') →
    next_loc st ≤ next_loc st' ∧
    ∀ l, allocated st l → deref st' l = deref st l.

(** * Properties *)

(** ** Dictionaries *)

Lemma dict_get_set_eq {V} (k : string) (v : V) (d : PyDict.dict V) :
  PyDict.get k (PyDict.set k v d) = Some v.
Proof.
  induction d as [|[k' v'] d IH]; simpl.
  - by rewrite decide_True.
  - destruct (decide (k' = k)) as [->|Hne]; simpl.
    + by rewrite decide_True.
    + by rewrite decide_False.
Qed.

Lemma dict_get_set_ne {V} (k k' : string) (v : V) (d : PyDict.dict V) :
  k ≠ k' → PyDict.get k' (PyDict.set k v d) = PyDict.get k' d.
Proof.
  intros Hne. induction d as [|[k0 v0] d IH]; simpl.
  - by rewrite decide_False.
  - destruct (decide (k0 = k)) as [->|Hk0]; simpl.
    + by rewrite !decide_False.
    + by rewrite IH.
Qed.

Lemma dict_keys_set {V} (k : string) (v : V) (d : PyDict.dict V) :
  PyDict.keys (PyDict.set k v d) =
    if decide (k ∈ PyDict.keys d) then PyDict.keys d else PyDict.keys d ++ [k].
Proof.
  unfold PyDict.keys. induction d as [|[k' v'] d IH].
  - destruct (decide (k ∈ ([] : PyDict.dict V).*1)) as [Hin|_]; [|done].
    by apply elem_of_nil in Hin.
  - cbn [PyDict.set]. destruct (decide (k' = k)) as [->|Hne].
    + destruct (decide (k ∈ ((k, v') :: d).*1)) as [_|Hnin]; [done|].
      destruct Hnin. apply list_elem_of_here.
    + rewrite fmap_cons, IH. cbn [fst].
      destruct (decide (k ∈ d.*1)) as [Hin|Hnin];
        destruct (decide (k ∈ ((k', v') :: d).*1)) as [Hin'|Hnin']; try done.
      * destruct Hnin'. by apply list_elem_of_further.
      * rewrite fmap_cons in Hin'. apply elem_of_cons in Hin' as [Hk|Hk]; [|done].
        cbn in Hk. congruence.
Qed.

Lemma dict_keys_set_NoDup {V} (k : string) (v : V) (d : PyDict.dict V) :
  NoDup (PyDict.keys d) → NoDup (PyDict.keys (PyDict.set k v d)).
Proof.
  intros Hnd. rewrite dict_keys_set. case_decide; [done|].
  apply NoDup_app. split_and!; [done | | apply NoDup_singleton].
  intros x Hx Hx'. apply list_elem_of_singleton in Hx'. by subst.
Qed.

(** ** Registration *)

Lemma register_dask_table_run (self : Context) (l : loc) (name : string) (w : World) :
  register_dask_table self l name w =
    (inr {| tables := PyDict.set (lower name) (table_entry w l) (tables self);
            functions := functions self;
            aggregations := aggregations self |},
     {| store := (alloc (deref (store w) l) (store w)).2; trace := trace w |}).
Proof.
  unfold register_dask_table, copy, reading, table_entry, mbind, M_bind, mret, M_ret.
  cbn. unfold deref at 2. cbn.
  destruct (decide (l = next_loc (store w))) as [->|_]; reflexivity.
Qed.

Lemma alloc_old (df0 : DataFrame) (st : Store) (l : loc) :
  allocated st l → deref (alloc df0 st).2 l = deref st l.
Proof.
  unfold allocated, deref, alloc. cbn. intros Hl.
  rewrite decide_False; [done | lia].
Qed.

Lemma alloc_new (df0 : DataFrame) (st : Store) :
  deref (alloc df0 st).2 (alloc df0 st).1 = df0.
Proof. unfold deref, alloc. cbn. by rewrite decide_True. Qed.

Lemma mutate_other (l l' : loc) (df0 : DataFrame) (st : Store) :
  l' ≠ l → deref (mutate l df0 st) l' = deref st l'.
Proof. unfold deref, mutate. cbn. intros Hne. by rewrite decide_False. Qed.

Lemma mutations_other (l l' : loc) (changes : list DataFrame) (st : Store) :
  l' ≠ l → deref (foldr (mutate l) st changes) l' = deref st l'.
Proof.
  intros Hne. induction changes as [|c changes IH]; [done|].
  cbn [foldr]. by rewrite mutate_other.
Qed.

(** C4. Registration stores under the case-folded name: after
    [register_dask_table], [register_function] or [register_aggregation]
    with name [n], the registry holds under [lower n] exactly the entry
    built from the arguments of this call, whatever was there before; the
    call raises nothing, and the registry's keys are the old ones if
    [lower n] was among them (the entry is replaced in place) and the old
    ones followed by [lower n] otherwise. *)
Theorem registration_stores_case_folded
    (self : Context) (w : World) (l : loc) (g : Callable) (n : string)
    (params : list (string * DType)) (ret : DType) :
  (∃ self' w',
      register_dask_table self l n w = (inr self', w') ∧
      PyDict.get (lower n) (tables self') = Some (table_entry w l) ∧
      replaced_or_appended (lower n) (tables self) (tables self')) ∧
  (let self' := register_function self g n params ret in
   PyDict.get (lower n) (functions self') =
     Some {| f := g; parameters := params; return_type := ret; aggregation := false |} ∧
   replaced_or_appended (lower n) (functions self) (functions self')) ∧
  (let self' := register_aggregation self g n params ret in
   PyDict.get (lower n) (functions self') =
     Some {| f := g; parameters := params; return_type := ret; aggregation := true |} ∧
   replaced_or_appended (lower n) (functions self) (functions self')).
Proof.
  cbn zeta. split_and!.
  - eexists _, _. rewrite register_dask_table_run. split; [reflexivity|]. cbn.
    split; [apply dict_get_set_eq | apply dict_keys_set].
  - apply dict_get_set_eq.
  - apply dict_keys_set.
  - apply dict_get_set_eq.
  - apply dict_keys_set.
Qed.


(** C10. Each registration touches its own entry only.
    [register_dask_table] with name [n] leaves every table entry under
    another key, the function registry, the aggregations map and every
    dataframe object that existed before the call as they were;
    [register_function] and [register_aggregation] leave the table
    registry, the aggregations map and every function entry under another
    key as they were. *)
Theorem registration_frame
    (self : Context) (w : World) (l : loc) (g : Callable) (n : string)
    (params : list (string * DType)) (ret : DType) (k : string) :
  k ≠ lower n →
  (∃ self' w',
      register_dask_table self l n w = (inr self', w') ∧
      PyDict.get k (tables self') = PyDict.get k (tables self) ∧
      functions self' = functions self ∧
      aggregations self' = aggregations self ∧
      trace w' = trace w ∧
      ∀ l', allocated (store w) l' → deref (store w') l' = deref (store w) l') ∧
  (let self' := register_function self g n params ret in
   PyDict.get k (functions self') = PyDict.get k (functions self) ∧
   tables self' = tables self ∧
   aggregations self' = aggregations self) ∧
  (let self' := register_aggregation self g n params ret in
   PyDict.get k (functions self') = PyDict.get k (functions self) ∧
   tables self' = tables self ∧
   aggregations self' = aggregations self).
Proof.
  intros Hk. cbn zeta. split_and!; try reflexivity.
  - eexists _, _. rewrite register_dask_table_run. split; [reflexivity|]. cbn.
    split_and!; try reflexivity.
    + by apply dict_get_set_ne.
    + intros l' Hl'. by apply alloc_old.
  - by apply dict_get_set_ne.
  - by apply dict_get_set_ne.
Qed.

(** C9. [register_dask_table] stores a copy taken at registration time:
    for a dataframe object [l] of the caller, the registered container
    refers to a different object, which holds what [l] held when the call
    was made, next to a column container built from the columns [l] had
    then; whatever the caller does to [l] in place afterwards, the
    registered dataframe is the one that was registered. *)
Theorem register_dask_table_copies
    (self : Context) (w : World) (l : loc) (n : string) :
  allocated (store w) l →
  ∃ self' w' dc,
    register_dask_table self l n w = (inr self', w') ∧
    PyDict.get (lower n) (tables self') = Some dc ∧
    df dc ≠ l ∧
    deref (store w') (df dc) = deref (store w) l ∧
    column_container dc = ColumnContainer_of (columns (deref (store w) l)) ∧
    ∀ changes : list DataFrame,
      deref (foldr (mutate l) (store w') changes) (df dc) = deref (store w) l ∧
      PyDict.get (lower n) (tables self') = Some dc.
Proof.
  unfold allocated. intros Hl.
  eexists _, _, (table_entry w l). rewrite register_dask_table_run.
  split; [reflexivity|]. cbn [tables store].
  assert (Hnew : deref (alloc (deref (store w) l) (store w)).2
                   (df (table_entry w l)) = deref (store w) l)
    by apply alloc_new.
  assert (Hne : df (table_entry w l) ≠ l) by (cbn; lia).
  split_and!; [apply dict_get_set_eq | done | done | done |].
  intros changes. split; [|apply dict_get_set_eq].
  by rewrite mutations_other.
Qed.

Lemma perform_aggregations (op : operation) (self : Context) (w : World) :
  aggregations (perform op self w).1 = aggregations self.
Proof.
  destruct op as [l name| | |]; [|reflexivity..].
  cbn [perform]. by rewrite register_dask_table_run.
Qed.

Lemma run_aggregations (ops : list operation) (self : Context) (w : World) :
  aggregations (run ops self w).1 = aggregations self.
Proof.
  revert self w. induction ops as [|op ops IH]; intros self w; [done|].
  cbn [run]. pose proof (perform_aggregations op self w) as Hop.
  destruct (perform op self w) as [self' w']. by rewrite IH.
Qed.

(** C8. The aggregations map is empty in a new context, no registration
    and no query writes it ([register_aggregation] writes the function
    registry), and so it is empty after every sequence of
    [register_dask_table], [register_function], [register_aggregation] and
    [sql] calls; an aggregation registered on the way is in the function
    registry. *)
Theorem aggregations_stay_empty (ops : list operation) (w : World) :
  aggregations init = PyDict.empty ∧
  (∀ op self w0, aggregations (perform op self w0).1 = aggregations self) ∧
  aggregations (run ops init w).1 = PyDict.empty ∧
  (∀ self g name params ret,
     let self' := (perform (RegisterAggregation g name params ret) self w).1 in
     aggregations self' = aggregations self ∧
     is_Some (PyDict.get (lower name) (functions self'))).
Proof.
  split_and!.
  - reflexivity.
  - apply perform_aggregations.
  - by rewrite run_aggregations.
  - intros self g name params ret. cbn. split; [done|].
    rewrite dict_get_set_eq. by eexists.
Qed.

(** ** Parse and validation errors *)

Ltac run_M :=
  unfold mbind, M_bind, mret, M_ret, call, reading, raise, try_except, print;
  cbn [fst snd store trace].

Lemma get_ral_raises (self : Context) (q : string) (d : bool) (w : World)
    (schema : DaskSchema) (e : JavaException) :
  _prepare_schema self (store w) = inr schema →
  planner_raises (new_RelationalAlgebraGenerator schema) q e →
  ∃ w', _get_ral self q d w = (inl (Java e), w') ∧ store w' = store w.
Proof.
  intros Hschema Hraise. unfold _get_ral. run_M. rewrite Hschema.
  destruct Hraise as [H1|n H1 H2|n v H1 H2 H3|n v r H1 H2 H3 H4];
    rewrite H1, ?H2, ?H3, ?H4; by eexists.
Qed.

Lemma sql_try_caught (self : Context) (q : string) (d : bool) (w w' : World)
    (e : JavaException) :
  is_parse_or_validation e = true →
  sql_try self q d w = (inl (Java e), w') →
  sql self q d w =
    (inl match ParsingException_init q (message e) with
         | None => ParsingException q (message e) (if d then Some e else None)
         | Some x => x
         end, w').
Proof.
  intros He Htry. unfold sql. run_M. rewrite Htry. cbn. rewrite He.
  by destruct (ParsingException_init q (message e)).
Qed.

(** C2. When the parser/validator throws a parse or validation exception
    [e] while [sql(q, debug=d)] runs (the schema having been built), [sql]
    constructs [ParsingException(q, message of e)]. If the constructor
    returns, [sql] raises that one [ParsingException], which carries the
    query text [q] and the message of [e]; its cause is [e] when [d] is
    true and absent when [d] is false. If the constructor raises, [sql]
    raises the constructor's exception and no [ParsingException]. *)
Theorem sql_parsing_exception (self : Context) (q : string) (d : bool) (w : World)
    (schema : DaskSchema) (e : JavaException) :
  _prepare_schema self (store w) = inr schema →
  planner_raises (new_RelationalAlgebraGenerator schema) q e →
  is_parse_or_validation e = true →
  ∃ w',
    store w' = store w ∧
    (ParsingException_init q (message e) = None →
     ∃ cause,
       sql self q d w = (inl (ParsingException q (message e) cause), w') ∧
       (cause = Some e ↔ d = true) ∧
       (cause = None ↔ d = false)) ∧
    (∀ x, ParsingException_init q (message e) = Some x →
          sql self q d w = (inl x, w')).
Proof.
  intros Hschema Hraise He.
  destruct (get_ral_raises self q d w schema e Hschema Hraise) as (w' & Hral & Hw').
  assert (Hsql := sql_try_caught self q d w w' e He).
  rewrite Hsql by (unfold sql_try; run_M; by rewrite Hral).
  exists w'. split_and!; [done| |].
  - intros ->. exists (if d then Some e else None). by destruct d.
  - by intros x ->.
Qed.

(** ** The captured output names *)

Lemma get_ral_returns (self : Context) (q : string) (d : bool) (w w' : World)
    (rel : RelNode) (names : option (list string)) :
  _get_ral self q d w = (inr (rel, names), w') →
  ∃ schema sqlNode,
    _prepare_schema self (store w) = inr schema ∧
    getSqlNode (new_RelationalAlgebraGenerator schema) q = inr sqlNode ∧
    store w' = store w ∧
    names =
      if decide (get_java_class sqlNode = SqlSelect)
      then Some ((λ s, toSqlString s
                         (getDialect (new_RelationalAlgebraGenerator schema)))
                   <$> getSelectList sqlNode)
      else None.
Proof.
  unfold _get_ral. run_M.
  destruct (_prepare_schema self (store w)) as [?|schema]; [done|].
  set (g := new_RelationalAlgebraGenerator schema).
  destruct (getSqlNode g q) as [?|n] eqn:Hn; [done|].
  destruct (getValidatedNode g n) as [?|v]; [done|].
  destruct (getRelationalAlgebra g v) as [?|r]; [done|].
  destruct (getOptimizedRelationalAlgebra g r) as [?|r']; [done|].
  destruct d; intros ?; simplify_eq; by exists schema, n.
Qed.

(** C3. When [_get_ral] returns, the name list it returns is decided by
    the class of the parsed top-level node: for an [SqlSelect] it is the
    list of the select list's items, in order, each printed in the
    planner's dialect, and for any other node it is [None]; so it is a
    list exactly if the node is an [SqlSelect]. For another node [sql]
    hands the converter's container to [assign] as it is. *)
Theorem select_names_only_for_select (self : Context) (q : string) (d : bool)
    (w w' w'' : World) (rel : RelNode) (names : option (list string))
    (dc : DataContainer) :
  _get_ral self q d w = (inr (rel, names), w') →
  convert rel self w' = (inr dc, w'') →
  ∃ schema sqlNode,
    _prepare_schema self (store w) = inr schema ∧
    getSqlNode (new_RelationalAlgebraGenerator schema) q = inr sqlNode ∧
    (get_java_class sqlNode = SqlSelect →
       names = Some ((λ s, toSqlString s
                             (getDialect (new_RelationalAlgebraGenerator schema)))
                       <$> getSelectList sqlNode)) ∧
    (is_Some names ↔ get_java_class sqlNode = SqlSelect) ∧
    (get_java_class sqlNode ≠ SqlSelect →
       names = None ∧ humanize dc names = dc ∧
       sql self q d w = assign dc w'').
Proof.
  intros Hral Hconv.
  destruct (get_ral_returns _ _ _ _ _ _ _ Hral) as (schema & n & Hs & Hn & _ & Hnames).
  exists schema, n. split_and!; [done..| | |].
  - intros Hselect. by rewrite decide_True in Hnames.
  - rewrite Hnames. case_decide; split; done || by intros [? [=]].
  - intros Hne. rewrite decide_False in Hnames by done. subst names.
    split_and!; [done..|].
    unfold sql, sql_try. run_M. by rewrite Hral, Hconv.
Qed.

(** ** What the schema contains *)

Section loops.
Context {A B S : Type} (body : A → S → Result S) (g : A → Result B)
  (add : B → S → S).
Hypothesis body_spec : ∀ x s,
  body x s = match g x with inl e => inl e | inr y => inr (add y s) end.

Lemma for_each_inr (l : list A) (s s' : S) :
  for_each l body s = inr s' →
  ∃ ys, Forall2 (λ x y, g x = inr y) l ys ∧ s' = foldl (λ s y, add y s) s ys.
Proof using body_spec.
  revert s. induction l as [|x l IH]; intros s; cbn.
  - intros [= <-]. exists []. by split; [constructor|].
  - rewrite body_spec. destruct (g x) as [e|y] eqn:Hy; cbn; [done|].
    intros (ys & Hys & ->)%IH. exists (y :: ys). by split; [constructor|].
Qed.

Lemma for_each_inl (l : list A) (s : S) (e : Exception) :
  for_each l body s = inl e → ∃ x, x ∈ l ∧ g x = inl e.
Proof using body_spec.
  revert s. induction l as [|x l IH]; intros s; cbn; [done|].
  rewrite body_spec. destruct (g x) as [e'|y] eqn:Hy; cbn.
  - intros [= <-]. exists x. split; [apply list_elem_of_here | done].
  - intros (x' & Hx' & He)%IH. exists x'.
    split; [by apply list_elem_of_further | done].
Qed.
End loops.

Lemma foldl_snoc {S B : Type} (add : B → S → S) (proj : S → list B) :
  (∀ y s, proj (add y s) = proj s ++ [y]) →
  ∀ ys s, proj (foldl (λ s y, add y s) s ys) = proj s ++ ys.
Proof.
  intros Hadd ys. induction ys as [|y ys IH]; intros s; cbn.
  - by rewrite app_nil_r.
  - by rewrite IH, Hadd, <-app_assoc.
Qed.

Lemma foldl_keep {S B C : Type} (add : B → S → S) (proj : S → C) :
  (∀ y s, proj (add y s) = proj s) →
  ∀ ys s, proj (foldl (λ s y, add y s) s ys) = proj s.
Proof.
  intros Hadd ys. induction ys as [|y ys IH]; intros s; cbn; [done|].
  by rewrite IH, Hadd.
Qed.

Lemma to_sql_type_inr (t : DType) (st : SqlType) :
  to_sql_type t = inr st ↔ python_to_sql_type t = Some st.
Proof. unfold to_sql_type. destruct (python_to_sql_type t); naive_solver. Qed.

Lemma to_sql_type_inl (t : DType) (e : Exception) :
  to_sql_type t = inl e → is_type_mapping_error e.
Proof.
  unfold to_sql_type, is_type_mapping_error.
  destruct (python_to_sql_type t) eqn:Ht; [done|]. intros [= <-]. by exists t.
Qed.

Lemma table_of_cases (st : Store) (name : string) (dc : DataContainer) :
  match table_of st name dc with
  | inr tb => describes_table st (name, dc) tb
  | inl e => is_type_mapping_error e
  end.
Proof.
  set (frame := deref st (df dc)).
  set (g := λ c, match to_sql_type (dtype (getitem frame c)) with
                 | inl e => inl e
                 | inr t => inr (c, t)
                 end : Result (string * SqlType)).
  set (add := λ (ct : string * SqlType) tb, addColumn ct.1 ct.2 tb).
  assert (Hbody : ∀ c tb,
    (sql_data_type ← to_sql_type (dtype (getitem frame c));
     mret (addColumn c sql_data_type tb)) =
    match g c with inl e => inl e | inr y => inr (add y tb) end).
  { intros c tb. unfold g. by destruct (to_sql_type _). }
  unfold table_of. fold frame.
  destruct (for_each _ _ _) as [e|tb] eqn:Hloop.
  - apply (for_each_inl _ g add Hbody) in Hloop as (c & _ & Hc).
    unfold g in Hc. destruct (to_sql_type _) eqn:Ht; [|done].
    injection Hc as <-. by eapply to_sql_type_inl.
  - apply (for_each_inr _ g add Hbody) in Hloop as (ys & Hys & ->).
    unfold describes_table. fold frame. cbn [fst snd]. split.
    + by rewrite (foldl_keep add table_name).
    + rewrite (foldl_snoc add table_columns) by (by intros [??] ?). cbn.
      eapply Forall2_impl; [done|]. intros c [c' t]. unfold g. cbn.
      destruct (to_sql_type _) eqn:Ht; [done|]. intros [= <- <-].
      by apply to_sql_type_inr in Ht.
Qed.

Lemma function_of_cases (name : string) (fd : FunctionDescription) :
  match function_of name fd with
  | inr fn => describes_function (name, fd) fn
  | inl e => is_type_mapping_error e
  end.
Proof.
  set (g := λ p : string * DType,
              match to_sql_type p.2 with
              | inl e => inl e
              | inr t => inr (p.1, t, false)
              end : Result (string * SqlType * bool)).
  set (add := λ (sp : string * SqlType * bool) fn, addParameter sp.1.1 sp.1.2 sp.2 fn).
  assert (Hbody : ∀ p fn,
    (let '(param_name, param_type) := p in
     sql_param_type ← to_sql_type param_type;
     mret (addParameter param_name sql_param_type false fn)) =
    match g p with inl e => inl e | inr y => inr (add y fn) end).
  { intros [pn pt] fn. unfold g. cbn. by destruct (to_sql_type _). }
  unfold function_of.
  destruct (to_sql_type (return_type fd)) as [e|rt] eqn:Hrt; cbn.
  { by eapply to_sql_type_inl. }
  unfold _add_parameters_from_description.
  destruct (for_each _ _ _) as [e|fn] eqn:Hloop.
  - apply (for_each_inl _ g add Hbody) in Hloop as (p0 & _ & Hp).
    unfold g in Hp. destruct (to_sql_type p0.2) eqn:Ht; [|done].
    injection Hp as <-. by eapply to_sql_type_inl.
  - apply (for_each_inr _ g add Hbody) in Hloop as (ys & Hys & ->).
    unfold describes_function. cbn [fst snd].
    rewrite (foldl_keep add function_name), (foldl_keep add function_kind),
      (foldl_keep add function_return_type) by done.
    rewrite (foldl_snoc add function_parameters) by (by intros [[??]?] ?).
    cbn. split_and!; [done..|by apply to_sql_type_inr|].
    eapply Forall2_impl; [done|]. intros [pn pt] [[pn' t] o]. unfold g. cbn.
    destruct (to_sql_type pt) eqn:Ht; [done|]. intros [= <- <- <-].
    by apply to_sql_type_inr in Ht.
Qed.

Lemma prepare_schema_cases (self : Context) (st : Store) :
  match _prepare_schema self st with
  | inr schema => describes self st schema
  | inl e => is_type_mapping_error e
  end.
Proof.
  set (gt := λ entry : string * DataContainer, table_of st entry.1 entry.2).
  set (gf := λ entry : string * FunctionDescription, function_of entry.1 entry.2).
  unfold _prepare_schema.
  destruct (for_each (PyDict.items (tables self)) _ _) as [e|s1] eqn:Hloop1; cbn.
  { apply (for_each_inl _ gt addTable) in Hloop1 as ([name dc] & _ & He);
      [|by intros [??] ?].
    pose proof (table_of_cases st name dc) as Hcases. unfold gt in He. cbn in He.
    by rewrite He in Hcases. }
  apply (for_each_inr _ gt addTable) in Hloop1 as (tbs & Htbs & ->);
    [|by intros [??] ?].
  destruct (for_each (PyDict.items (functions self)) _ _) as [e|s2] eqn:Hloop2.
  { apply (for_each_inl _ gf addFunction) in Hloop2 as ([name fd] & _ & He);
      [|by intros [??] ?].
    pose proof (function_of_cases name fd) as Hcases. unfold gf in He. cbn in He.
    by rewrite He in Hcases. }
  apply (for_each_inr _ gf addFunction) in Hloop2 as (fns & Hfns & ->);
    [|by intros [??] ?].
  unfold describes.
  rewrite (foldl_keep addFunction schema_name), (foldl_keep addTable schema_name),
    (foldl_keep addFunction schema_tables), (foldl_snoc addTable schema_tables),
    (foldl_snoc addFunction schema_functions),
    (foldl_keep addTable schema_functions) by done.
  cbn. split_and!; [done| |].
  - eapply Forall2_impl; [done|]. intros [name dc] tb Htb.
    pose proof (table_of_cases st name dc) as Hcases. unfold gt in Htb. cbn in Htb.
    by rewrite Htb in Hcases.
  - eapply Forall2_impl; [done|]. intros [name fd] fn Hfn.
    pose proof (function_of_cases name fd) as Hcases. unfold gf in Hfn. cbn in Hfn.
    by rewrite Hfn in Hcases.
Qed.

Lemma describes_mappable (self : Context) (st : Store) (schema : DaskSchema) :
  describes self st schema → ¬ has_unmappable_type self st.
Proof.
  intros (_ & Htables & Hfunctions) [(name & dc & c & Hin & Hc & Hnone)
                                      |(name & fd & Hin & Hnone)].
  - apply list_elem_of_lookup in Hin as [i Hi].
    destruct (Forall2_lookup_l _ _ _ _ _ Htables Hi) as (tb & _ & _ & Hcols).
    cbn in Hcols. apply list_elem_of_lookup in Hc as [j Hj].
    destruct (Forall2_lookup_l _ _ _ _ _ Hcols Hj) as (ct & _ & _ & Hsome).
    congruence.
  - apply list_elem_of_lookup in Hin as [i Hi].
    destruct (Forall2_lookup_l _ _ _ _ _ Hfunctions Hi)
      as (fn & _ & _ & _ & Hret & Hparams).
    cbn in Hret, Hparams. destruct Hnone as [Hnone|(p0 & Hp & Hnone)]; [congruence|].
    apply list_elem_of_lookup in Hp as [j Hj].
    destruct (Forall2_lookup_l _ _ _ _ _ Hparams Hj) as (sp & _ & _ & Hsome & _).
    congruence.
Qed.

(** ** What the trace records *)

Lemma extends_ret {A} (x : A) : extends (mret x).
Proof. intros w. exists []. by rewrite app_nil_r. Qed.

Lemma extends_raise {A} (e : Exception) : extends (raise (A := A) e).
Proof. intros w. exists []. by rewrite app_nil_r. Qed.

Lemma extends_reading {A} (g : Store → Result A) : extends (reading g).
Proof. intros w. exists []. by rewrite app_nil_r. Qed.

Lemma extends_call {A} (ev : event) (r : JavaException + A) : extends (call ev r).
Proof. intros w. by exists [ev]. Qed.

Lemma extends_print (s : string) : extends (print s).
Proof. intros w. by exists [Print s]. Qed.

Lemma extends_convert (rel : RelNode) (self : Context) : extends (convert rel self).
Proof.
  intros w. exists [Convert]. unfold convert.
  by destruct (RelConverter_convert rel self (store w)) as [?|[??]].
Qed.

Lemma extends_assign (dc : DataContainer) : extends (assign dc).
Proof.
  intros w. exists []. unfold assign. rewrite app_nil_r.
  by destruct (list_find _ _) as [[? [??]]|].
Qed.

Lemma extends_bind {A B} (m : M A) (k : A → M B) :
  extends m → (∀ x, extends (k x)) → extends (m ≫= k).
Proof.
  intros Hm Hk w. destruct (Hm w) as [evs Hevs]. run_M.
  destruct (m w) as [[e|x] w1]; [by exists evs|].
  destruct (Hk x w1) as [evs' Hevs']. exists (evs ++ evs').
  cbn in Hevs. by rewrite Hevs', Hevs, app_assoc.
Qed.

Lemma extends_try_except {A} (m : M A) (h : Exception → M A) :
  extends m → (∀ e, extends (h e)) → extends (try_except m h).
Proof.
  intros Hm Hh w. destruct (Hm w) as [evs Hevs]. run_M.
  destruct (m w) as [[e|x] w1]; [|by exists evs].
  destruct (Hh e w1) as [evs' Hevs']. exists (evs ++ evs').
  cbn in Hevs. by rewrite Hevs', Hevs, app_assoc.
Qed.

Lemma extends_sql_except {A} (q : string) (d : bool) (e : Exception) :
  extends (sql_except (A := A) q d e).
Proof.
  destruct e as [je| | | | |]; cbn; try apply extends_raise.
  destruct (is_parse_or_validation je); [|apply extends_raise].
  destruct (ParsingException_init q (message je)); apply extends_raise.
Qed.

Lemma records_first_bind {A B} (ev : event) (m : M A) (k : A → M B) (w : World) :
  records_first ev m w → (∀ x, extends (k x)) → records_first ev (m ≫= k) w.
Proof.
  intros [evs Hevs] Hk. unfold records_first. run_M.
  destruct (m w) as [[e|x] w1]; [by exists evs|].
  destruct (Hk x w1) as [evs' Hevs']. exists (evs ++ evs').
  cbn in Hevs. by rewrite Hevs', Hevs, <-app_assoc.
Qed.

Lemma records_first_try_except {A} (ev : event) (m : M A) (h : Exception → M A)
    (w : World) :
  records_first ev m w → (∀ e, extends (h e)) → records_first ev (try_except m h) w.
Proof.
  intros [evs Hevs] Hh. unfold records_first. run_M.
  destruct (m w) as [[e|x] w1]; [|by exists evs].
  destruct (Hh e w1) as [evs' Hevs']. exists (evs ++ evs').
  cbn in Hevs. by rewrite Hevs', Hevs, <-app_assoc.
Qed.

Lemma get_ral_records_generator (self : Context) (q : string) (d : bool)
    (w : World) (schema : DaskSchema) :
  _prepare_schema self (store w) = inr schema →
  records_first (NewGenerator schema) (_get_ral self q d) w.
Proof.
  intros Hschema. unfold _get_ral.
  assert (Hrest : ∀ g : RelationalAlgebraGenerator, extends (
    sqlNode ← call (GetSqlNode q) (getSqlNode g q);
    validatedSqlNode ← call GetValidatedNode (getValidatedNode g sqlNode);
    nonOptimizedRelNode ←
      call GetRelationalAlgebra (getRelationalAlgebra g validatedSqlNode);
    rel ← call GetOptimizedRelationalAlgebra
            (getOptimizedRelationalAlgebra g nonOptimizedRelNode);
    default_dialect ← call GetDialect (inr (getDialect g));
    let select_names :=
      if decide (get_java_class sqlNode = "org.apache.calcite.sql.SqlSelect")
      then Some ((λ s, toSqlString s default_dialect) <$> getSelectList sqlNode)
      else None in
    (if d then print (getRelationalAlgebraString g rel) else mret ());;
    mret (rel, select_names))).
  { intros g. repeat (apply extends_bind; [apply extends_call | intros ?]).
    apply extends_bind; [|intros ?; apply extends_ret].
    destruct d; [apply extends_print | apply extends_ret]. }
  destruct (Hrest (new_RelationalAlgebraGenerator schema)
              {| store := store w; trace := trace w ++ [NewGenerator schema] |})
    as [evs Hevs].
  exists evs. revert Hevs. run_M. rewrite Hschema. cbn [store trace].
  intros ->. by rewrite <-app_assoc.
Qed.

Lemma sql_records_generator (self : Context) (q : string) (d : bool)
    (w : World) (schema : DaskSchema) :
  _prepare_schema self (store w) = inr schema →
  records_first (NewGenerator schema) (sql self q d) w.
Proof.
  intros Hschema. unfold sql.
  apply records_first_bind; [|intros [dc names]; apply extends_assign].
  apply records_first_try_except; [|intros e; apply extends_sql_except].
  unfold sql_try. apply records_first_bind; [by apply get_ral_records_generator|].
  intros [rel names]. apply extends_bind; [apply extends_convert|].
  intros dc. apply extends_ret.
Qed.

Lemma sql_schema_error (self : Context) (q : string) (d : bool) (w : World)
    (e : Exception) :
  _prepare_schema self (store w) = inl e → is_type_mapping_error e →
  _get_ral self q d w = (inl e, w) ∧ sql self q d w = (inl e, w).
Proof.
  intros Hschema (t & -> & _).
  assert (Hral : _get_ral self q d w = (inl (TypeMappingError t), w)).
  { unfold _get_ral. run_M. by rewrite Hschema. }
  split; [done|]. unfold sql, sql_try. run_M. by rewrite Hral.
Qed.

(** C6. Every [sql] call builds its schema from the registries as they
    are at that call: after a first query and any further calls on the
    context, a second query either fails in [_prepare_schema] with a type
    mapping error, or the first thing it does with the planner is to
    create the generator with a schema that has exactly one table per
    registered table (its name, its columns with their SQL types) and one
    function per registered function (its name, its kind by the flag, its
    return and parameter types), all read from the context and the
    dataframes as they are then. *)
Theorem schema_rebuilt_on_every_query
    (self : Context) (ops : list operation) (q1 q2 : string) (d1 d2 : bool)
    (w : World) :
  let w1 := (sql self q1 d1 w).2 in
  let self' := (run ops self w1).1 in
  let w2 := (run ops self w1).2 in
  match _prepare_schema self' (store w2) with
  | inr schema =>
      describes self' (store w2) schema ∧
      records_first (NewGenerator schema) (sql self' q2 d2) w2
  | inl e =>
      is_type_mapping_error e ∧ sql self' q2 d2 w2 = (inl e, w2)
  end.
Proof.
  cbn zeta.
  set (self' := (run ops self (sql self q1 d1 w).2).1).
  set (w2 := (run ops self (sql self q1 d1 w).2).2).
  pose proof (prepare_schema_cases self' (store w2)) as Hcases.
  destruct (_prepare_schema self' (store w2)) as [e|schema] eqn:Hschema.
  - split; [done|]. by apply sql_schema_error.
  - split; [done|]. by apply sql_records_generator.
Qed.

(** C7. A registered table column, function return type or function
    parameter type without a SQL type makes [sql] fail while the schema is
    built: [_prepare_schema] raises the type mapping error, [_get_ral] and
    [sql] raise that same error, and the world is then as it was before
    the call: nothing has been recorded, so neither has the generator been
    created nor the query text been handed to the parser. *)
Theorem unmappable_type_fails_before_parsing
    (self : Context) (q : string) (d : bool) (w : World) :
  has_unmappable_type self (store w) →
  ∃ t,
    python_to_sql_type t = None ∧
    _prepare_schema self (store w) = inl (TypeMappingError t) ∧
    _get_ral self q d w = (inl (TypeMappingError t), w) ∧
    sql self q d w = (inl (TypeMappingError t), w).
Proof.
  intros Hbad. pose proof (prepare_schema_cases self (store w)) as Hcases.
  destruct (_prepare_schema self (store w)) as [e|schema] eqn:Hschema.
  - destruct (sql_schema_error self q d w e Hschema Hcases) as [Hral Hsql].
    destruct Hcases as (t & -> & Ht). by exists t.
  - by apply describes_mappable in Hcases.
Qed.

(** ** Humanized column names *)

Lemma foldl_set_absent {V A B : Type} (key : A * B → string) (val : A * B → V)
    (l : list (A * B)) (d : PyDict.dict V) (k : string) :
  k ∉ key <$> l →
  PyDict.get k (foldl (λ d x, PyDict.set (key x) (val x) d) d l) = PyDict.get k d.
Proof.
  revert d. induction l as [|x l IH]; intros d Hk; [done|].
  rewrite fmap_cons, not_elem_of_cons in Hk. destruct Hk as [Hne Hk].
  cbn [foldl]. rewrite IH by done. by apply dict_get_set_ne.
Qed.

Lemma foldl_set_present {V A B : Type} (key : A * B → string) (val : A * B → V)
    (l : list (A * B)) (d : PyDict.dict V) (x : A * B) :
  NoDup (key <$> l) → x ∈ l →
  PyDict.get (key x) (foldl (λ d x, PyDict.set (key x) (val x) d) d l) = Some (val x).
Proof.
  revert d. induction l as [|y l IH]; intros d Hnd Hx.
  - by apply elem_of_nil in Hx.
  - rewrite fmap_cons, NoDup_cons in Hnd. destruct Hnd as [Hy Hnd].
    cbn [foldl]. apply elem_of_cons in Hx as [->|Hx].
    + rewrite foldl_set_absent by done. apply dict_get_set_eq.
    + by apply IH.
Qed.

Lemma rename_mapping_fold (cols select_names : list string) :
  rename_mapping cols select_names =
    foldl (λ d x, PyDict.set x.1
                    (if negb (startswith x.1 "EXPR$") then x.1 else x.2) d)
      PyDict.empty (zip cols select_names).
Proof.
  unfold rename_mapping. generalize (PyDict.empty (V := string)).
  induction (zip cols select_names) as [|[c n] l IH]; intros d; [done|].
  cbn [foldl]. apply IH.
Qed.

Lemma zip_fst_lookup (cols select_names : list string) (j : nat) (c : string) :
  (zip cols select_names).*1 !! j = Some c →
  cols !! j = Some c ∧ is_Some (select_names !! j).
Proof.
  rewrite list_lookup_fmap, lookup_zip_with.
  destruct (cols !! j) as [c'|]; [|done]. cbn.
  destruct (select_names !! j) as [n|]; [|done]. cbn.
  intros [= <-]. split; [done | by eexists].
Qed.

(** The value of the comprehension's dict at the name of column [i]. *)
Lemma rename_mapping_get (cols select_names : list string) (i : nat) (c : string) :
  NoDup cols → cols !! i = Some c →
  PyDict.get c (rename_mapping cols select_names) =
    (λ n, if negb (startswith c "EXPR$") then c else n) <$> select_names !! i.
Proof.
  intros Hnd Hc. rewrite rename_mapping_fold.
  destruct (select_names !! i) as [n|] eqn:Hn; cbn.
  - apply (foldl_set_present fst
             (λ x, if negb (startswith x.1 "EXPR$") then x.1 else x.2) _ _ (c, n)).
    + apply NoDup_alt. intros j1 j2 x [H1 _]%zip_fst_lookup [H2 _]%zip_fst_lookup.
      by eapply NoDup_lookup.
    + apply list_elem_of_lookup. exists i.
      by rewrite lookup_zip_with, Hc, Hn.
  - rewrite foldl_set_absent; [done|].
    intros [j Hj]%list_elem_of_lookup. apply zip_fst_lookup in Hj as [Hj [n Hn']].
    assert (j = i) as -> by by eapply NoDup_lookup. congruence.
Qed.

Lemma rename_columns (m : PyDict.dict string) (cc : ColumnContainer) :
  cc_columns (rename m cc) = (λ l, default l (PyDict.get l m)) <$> cc_columns cc.
Proof. unfold cc_columns, rename. cbn. by rewrite <-!list_fmap_compose. Qed.

Lemma rename_labels (m : PyDict.dict string) (cc : ColumnContainer) :
  (mapping (rename m cc)).*2 = (mapping cc).*2.
Proof. unfold rename. cbn. by rewrite <-list_fmap_compose. Qed.

Lemma humanize_columns (dc : DataContainer) (names : list string) (i : nat) (c : string) :
  NoDup (cc_columns (column_container dc)) →
  cc_columns (column_container dc) !! i = Some c →
  cc_columns (column_container (humanize dc (Some names))) !! i =
    Some (if startswith c "EXPR$" then default c (names !! i) else c).
Proof.
  intros Hnd Hc. unfold humanize. destruct names as [|n names]; cbn [truthy].
  - rewrite Hc. by destruct (startswith c "EXPR$").
  - change (default [] (Some (n :: names))) with (n :: names).
    cbn [column_container]. rewrite rename_columns, list_lookup_fmap, Hc.
    cbn [fmap option_fmap option_map].
    rewrite (rename_mapping_get _ _ i) by done.
    destruct ((n :: names) !! i), (startswith c "EXPR$"); done.
Qed.

(** C1. When [sql] has captured a list of output names, the converter's
    container is humanized before [assign] is called on it; the dataframe
    and the Physical Labels are kept. For a name-unique column list (spec
    3) and a captured list that has a name for every column, every Logical
    Name that starts with [EXPR$] is renamed to the captured name of its
    position and every other Logical Name is left as it is. *)
Theorem sql_humanizes_synthetic_names
    (self : Context) (q : string) (d : bool) (w w' : World)
    (dc : DataContainer) (names : list string) :
  let cols := cc_columns (column_container dc) in
  let dc' := humanize dc (Some names) in
  sql_try self q d w = (inr (dc, Some names), w') →
  NoDup cols →
  length cols ≤ length names →
  sql self q d w = assign dc' w' ∧
  df dc' = df dc ∧
  (mapping (column_container dc')).*2 = (mapping (column_container dc)).*2 ∧
  renames_every_synthetic_name cols names (cc_columns (column_container dc')).
Proof.
  cbn zeta. intros Htry Hnd Hlen. split_and!.
  - unfold sql. run_M. by rewrite Htry.
  - unfold humanize. by destruct (truthy _).
  - unfold humanize. destruct (truthy _); [|done]. apply rename_labels.
  - intros i c Hc. rewrite (humanize_columns dc names i c Hnd Hc).
    destruct (startswith c "EXPR$"); [|done].
    destruct (names !! i) as [n|] eqn:Hn; [by exists n|].
    apply lookup_ge_None in Hn. apply lookup_lt_Some in Hc. lia.
Qed.

(** ** Registration, composed *)

Lemma dict_set_set {V} (k : string) (v1 v2 : V) (d : PyDict.dict V) :
  PyDict.set k v2 (PyDict.set k v1 d) = PyDict.set k v2 d.
Proof.
  induction d as [|[k' v'] d IH]; cbn.
  - by rewrite decide_True.
  - destruct (decide (k' = k)) as [->|Hne]; cbn.
    + by rewrite decide_True.
    + by rewrite decide_False, IH.
Qed.

Lemma dict_get_set {V} (k k' : string) (v : V) (d : PyDict.dict V) :
  PyDict.get k' (PyDict.set k v d) = if decide (k = k') then Some v else PyDict.get k' d.
Proof.
  destruct (decide (k = k')) as [->|Hne];
    [apply dict_get_set_eq | by apply dict_get_set_ne].
Qed.

Lemma dict_keys_set_set_Permutation {V} (k1 k2 : string) (v1 v2 : V)
    (d : PyDict.dict V) :
  k1 ≠ k2 →
  PyDict.keys (PyDict.set k1 v1 (PyDict.set k2 v2 d)) ≡ₚ
  PyDict.keys (PyDict.set k2 v2 (PyDict.set k1 v1 d)).
Proof.
  intros Hne. rewrite !dict_keys_set.
  assert (Hmem : ∀ (a b : string) (l : list string),
            a ≠ b → a ∈ l ++ [b] → a ∈ l).
  { intros a b l Hab [?|Hin%list_elem_of_singleton]%elem_of_app; [done|congruence]. }
  assert (Hl : ∀ (a b : string) (l : list string), a ∈ l → a ∈ l ++ [b]).
  { intros a b l Hin. apply elem_of_app. by left. }
  destruct (decide (k1 ∈ PyDict.keys d)) as [H1|H1],
           (decide (k2 ∈ PyDict.keys d)) as [H2|H2];
    repeat case_decide; try done;
    try (exfalso; eauto using Hmem, Hl; fail).
  rewrite <-!app_assoc. apply Permutation_app_head, Permutation_swap.
Qed.

(** X1. A later registration in the function registry shadows an earlier
    one under the same case-folded name completely: the context is the
    one the later call alone would have produced, whichever of
    [register_function] and [register_aggregation] the two calls are. In
    particular registering twice with the same arguments is registering
    once, and the key keeps its place. *)
Theorem later_registration_shadows
    (self : Context) (g1 g2 : Callable) (n1 n2 : string)
    (params1 params2 : list (string * DType)) (ret1 ret2 : DType) :
  lower n1 = lower n2 →
  register_function (register_function self g1 n1 params1 ret1) g2 n2 params2 ret2
    = register_function self g2 n2 params2 ret2 ∧
  register_function (register_aggregation self g1 n1 params1 ret1) g2 n2 params2 ret2
    = register_function self g2 n2 params2 ret2 ∧
  register_aggregation (register_function self g1 n1 params1 ret1) g2 n2 params2 ret2
    = register_aggregation self g2 n2 params2 ret2 ∧
  register_aggregation (register_aggregation self g1 n1 params1 ret1) g2 n2 params2 ret2
    = register_aggregation self g2 n2 params2 ret2.
Proof.
  intros Heq. unfold register_function, register_aggregation.
  cbn [tables functions aggregations]. rewrite Heq, !dict_set_set. done.
Qed.

(** X2. Registrations under names that fold to different keys do not
    interfere: in either order every lookup in the function registry gives
    the same entry, and the registry has the same keys (the order of two
    new keys apart). *)
Theorem registrations_commute
    (self : Context) (g1 g2 : Callable) (n1 n2 : string)
    (params1 params2 : list (string * DType)) (ret1 ret2 : DType) :
  lower n1 ≠ lower n2 →
  let a := register_aggregation (register_function self g1 n1 params1 ret1)
             g2 n2 params2 ret2 in
  let b := register_function (register_aggregation self g2 n2 params2 ret2)
             g1 n1 params1 ret1 in
  (∀ k, PyDict.get k (functions a) = PyDict.get k (functions b)) ∧
  PyDict.keys (functions a) ≡ₚ PyDict.keys (functions b) ∧
  tables a = tables b ∧ aggregations a = aggregations b.
Proof.
  intros Hne. cbn zeta. cbn [register_function register_aggregation
    tables functions aggregations]. split_and!; [|by apply dict_keys_set_set_Permutation|done..].
  intros k. rewrite !dict_get_set.
  destruct (decide (lower n2 = k)), (decide (lower n1 = k)); congruence.
Qed.

Lemma perform_keys_NoDup (op : operation) (self : Context) (w : World) :
  NoDup (PyDict.keys (tables self)) → NoDup (PyDict.keys (functions self)) →
  NoDup (PyDict.keys (tables (perform op self w).1)) ∧
  NoDup (PyDict.keys (functions (perform op self w).1)).
Proof.
  intros Ht Hf. destruct op as [l name|g name params ret|g name params ret|q d];
    cbn [perform].
  - rewrite register_dask_table_run. cbn. split; [by apply dict_keys_set_NoDup|done].
  - cbn. split; [done | by apply dict_keys_set_NoDup].
  - cbn. split; [done | by apply dict_keys_set_NoDup].
  - done.
Qed.

Lemma run_keys_NoDup (ops : list operation) (self : Context) (w : World) :
  NoDup (PyDict.keys (tables self)) → NoDup (PyDict.keys (functions self)) →
  NoDup (PyDict.keys (tables (run ops self w).1)) ∧
  NoDup (PyDict.keys (functions (run ops self w).1)).
Proof.
  revert self w. induction ops as [|op ops IH]; intros self w Ht Hf; [done|].
  cbn [run]. destruct (perform_keys_NoDup op self w Ht Hf) as [Ht' Hf'].
  destruct (perform op self w) as [self' w']. by apply IH.
Qed.

Lemma describes_names (self : Context) (st : Store) (schema : DaskSchema) :
  describes self st schema →
  table_name <$> schema_tables schema = PyDict.keys (tables self) ∧
  function_name <$> schema_functions schema = PyDict.keys (functions self).
Proof.
  intros (_ & Htables & Hfunctions). unfold PyDict.keys, PyDict.items in *. split.
  - induction Htables as [|[name dc] tb ts tbs [Hname _] _ IH]; [done|].
    cbn. by rewrite Hname, IH.
  - induction Hfunctions as [|[name fd] fn fs fns [Hname _] _ IH]; [done|].
    cbn. by rewrite Hname, IH.
Qed.

(** X3. One entry per name, always: after any sequence of calls on a new
    context no key occurs twice in the table registry or in the function
    registry, and a schema built from it lists the tables and the
    functions under exactly these keys, in first-registration order, so no
    two tables and no two functions of a schema share a name. *)
Theorem one_entry_per_name (ops : list operation) (w : World) :
  let self := (run ops init w).1 in
  NoDup (PyDict.keys (tables self)) ∧
  NoDup (PyDict.keys (functions self)) ∧
  ∀ st schema,
    _prepare_schema self st = inr schema →
    table_name <$> schema_tables schema = PyDict.keys (tables self) ∧
    function_name <$> schema_functions schema = PyDict.keys (functions self) ∧
    NoDup (table_name <$> schema_tables schema) ∧
    NoDup (function_name <$> schema_functions schema).
Proof.
  cbn zeta.
  destruct (run_keys_NoDup ops init w) as [Ht Hf]; [apply NoDup_nil_2..|].
  split_and!; [done..|]. intros st schema Hschema.
  pose proof (prepare_schema_cases (run ops init w).1 st) as Hcases.
  rewrite Hschema in Hcases. apply describes_names in Hcases as [-> ->]. done.
Qed.

(** X4. Over any sequence of calls, queries and table registrations
    included, the function registry holds under each key the entry of the
    last [register_function] or [register_aggregation] call whose name
    folds to that key, and what it held before if there is no such
    call. *)
Theorem last_registration_wins (ops : list operation) (self : Context)
    (w : World) (k : string) :
  PyDict.get k (functions (run ops self w).1) =
    last_registration k ops (PyDict.get k (functions self)).
Proof.
  revert self w. induction ops as [|op ops IH]; intros self w; [done|].
  cbn [run last_registration].
  assert (Hop : PyDict.get k (functions (perform op self w).1) =
    match registered_function op with
    | Some (k', fd) => if decide (k' = k) then Some fd else PyDict.get k (functions self)
    | None => PyDict.get k (functions self)
    end).
  { destruct op as [l name|g name params ret|g name params ret|q d];
      cbn [perform registered_function].
    - by rewrite register_dask_table_run.
    - cbn. apply dict_get_set.
    - cbn. apply dict_get_set.
    - done. }
  destruct (perform op self w) as [self' w']. cbn [fst] in Hop. by rewrite IH, Hop.
Qed.

Lemma perform_tables_get (op : operation) (self : Context) (w : World) (k : string) :
  is_query op = false →
  registered_table_key op ≠ Some k →
  PyDict.get k (tables (perform op self w).1) = PyDict.get k (tables self).
Proof.
  intros Hq Hop. destruct op as [l name|g name params ret|g name params ret|q d];
    cbn [perform]; [|done..|discriminate Hq].
  rewrite register_dask_table_run. cbn. apply dict_get_set_ne.
  cbn in Hop. congruence.
Qed.

Lemma run_tables_get (ops : list operation) (self : Context) (w : World) (k : string) :
  Forall (λ op, is_query op = false) ops →
  Forall (λ op, registered_table_key op ≠ Some k) ops →
  PyDict.get k (tables (run ops self w).1) = PyDict.get k (tables self).
Proof.
  revert self w. induction ops as [|op ops IH]; intros self w Hqs Hops; [done|].
  apply Forall_cons in Hqs as [Hq Hqs]. apply Forall_cons in Hops as [Hop Hops].
  cbn [run]. pose proof (perform_tables_get op self w k Hq Hop) as Hget.
  destruct (perform op self w) as [self' w']. cbn [fst] in Hget. by rewrite IH, Hget.
Qed.

(** X5. Registrations elsewhere leave a table entry as it is: over calls
    none of which is a query and none of which registers a table under
    [k] (tables under other keys, functions and aggregations under any
    name), the entry under [k], column container included, is the one it
    was. A query is left out: its converter works on the containers the
    registry refers to. *)
Theorem table_entry_persists (ops : list operation) (self : Context)
    (w : World) (k : string) :
  Forall (λ op, is_query op = false) ops →
  Forall (λ op, registered_table_key op ≠ Some k) ops →
  PyDict.get k (tables (run ops self w).1) = PyDict.get k (tables self).
Proof. apply run_tables_get. Qed.

(** ** Registration and the schema *)

Lemma dict_get_elem_of {V} (k : string) (v : V) (d : PyDict.dict V) :
  PyDict.get k d = Some v → (k, v) ∈ d.
Proof.
  induction d as [|[k' v'] d IH]; cbn; [done|].
  destruct (decide (k' = k)) as [->|Hne].
  - intros [= ->]. apply list_elem_of_here.
  - intros Hget. apply list_elem_of_further. by apply IH.
Qed.

(** X6. A table registered from the dataframe at [l] under name [n] is in
    the next schema: if building the schema succeeds, it has a table named
    [lower n] whose columns are the columns the dataframe had when it was
    registered, in order, each with the SQL type of its dtype; if one of
    these columns has a dtype without a SQL type, building the schema
    fails, and it fails with a type mapping error only. *)
Theorem registered_table_in_schema
    (self : Context) (w : World) (l : loc) (n : string) :
  let frame := deref (store w) l in
  ∃ self' w',
    register_dask_table self l n w = (inr self', w') ∧
    match _prepare_schema self' (store w') with
    | inr schema =>
        Forall (λ c, is_Some (python_to_sql_type (dtype (getitem frame c))))
          (columns frame) ∧
        ∃ tb, tb ∈ schema_tables schema ∧ table_name tb = lower n ∧
              Forall2 (λ c ct, ct.1 = c ∧
                         python_to_sql_type (dtype (getitem frame c)) = Some ct.2)
                (columns frame) (table_columns tb)
    | inl e => is_type_mapping_error e
    end.
Proof.
  cbn zeta. eexists _, _. rewrite register_dask_table_run. split; [reflexivity|].
  set (self' := {| tables := _; functions := _; aggregations := _ |}).
  set (st' := store _).
  pose proof (prepare_schema_cases self' st') as Hcases.
  destruct (_prepare_schema self' st') as [e|schema]; [done|].
  destruct Hcases as (_ & Htables & _).
  assert (Hin : (lower n, table_entry w l) ∈ PyDict.items (tables self')).
  { apply dict_get_elem_of. apply dict_get_set_eq. }
  apply list_elem_of_lookup in Hin as [i Hi].
  destruct (Forall2_lookup_l _ _ _ _ _ Htables Hi) as (tb & Htb & Hname & Hcols).
  cbn [fst snd] in Hname, Hcols.
  assert (Hframe : deref st' (df (table_entry w l)) = deref (store w) l)
    by apply alloc_new.
  rewrite Hframe in Hcols. split.
  - clear -Hcols. induction Hcols as [|c ct cs cts [_ Hc] _ IH]; constructor; [|done].
    by eexists.
  - exists tb. split_and!; [|done..]. apply list_elem_of_lookup. by exists i.
Qed.

(** ** Errors and the order of calls in [sql] *)

(** X7. [sql] translates parse and validation exceptions only: any other
    exception raised while the plan is obtained and converted (a type
    mapping error, an error of a converter plugin, another Java exception)
    reaches the caller as it was raised, and [assign] is not reached. *)
Theorem other_errors_pass_through
    (self : Context) (q : string) (d : bool) (w w' : World) (e : Exception) :
  sql_try self q d w = (inl e, w') →
  (∀ je, e = Java je → is_parse_or_validation je = false) →
  sql self q d w = (inl e, w').
Proof.
  intros Htry He. unfold sql. run_M. rewrite Htry.
  destruct e as [je| | | | |]; cbn; try reflexivity.
  by rewrite (He je eq_refl).
Qed.

(** X8. The [try] statement of [sql] covers the conversion of the plan as
    well: a parse or validation exception that comes out of
    [RelConverter.convert], after the planner has succeeded, is turned
    into a [ParsingException] with the query text and the exception's
    message, like one of the planner, if the constructor of that
    exception returns for this text and message. *)
Theorem converter_exceptions_translated
    (self : Context) (q : string) (d : bool) (w w1 w2 : World)
    (rel : RelNode) (names : option (list string)) (je : JavaException) :
  _get_ral self q d w = (inr (rel, names), w1) →
  convert rel self w1 = (inl (Java je), w2) →
  is_parse_or_validation je = true →
  ParsingException_init q (message je) = None →
  sql self q d w =
    (inl (ParsingException q (message je) (if d then Some je else None)), w2).
Proof.
  intros Hral Hconv Hje Hinit.
  rewrite (sql_try_caught self q d w w2 je Hje), Hinit; [done|].
  unfold sql_try. run_M. by rewrite Hral, Hconv.
Qed.

Lemma sql_except_raises {A} (q : string) (d : bool) (e : Exception) (w : World) :
  ∃ x, sql_except (A := A) q d e w = (inl x, w).
Proof.
  destruct e as [je| | | | |]; cbn; try by eexists.
  destruct (is_parse_or_validation je); [|by eexists].
  destruct (ParsingException_init q (message je)); by eexists.
Qed.

Lemma sql_returns (self : Context) (q : string) (d : bool) (w w' : World) (l : loc) :
  sql self q d w = (inr l, w') →
  ∃ rel names dc w1 w2,
    _get_ral self q d w = (inr (rel, names), w1) ∧
    convert rel self w1 = (inr dc, w2) ∧
    assign (humanize dc names) w2 = (inr l, w').
Proof.
  unfold sql, sql_try. run_M.
  destruct (_get_ral self q d w) as [[e|[rel names]] w1].
  { destruct (sql_except_raises (A := DataContainer * option (list string)) q d e w1)
      as [x ->]. done. }
  destruct (convert rel self w1) as [[e|dc] w2] eqn:Hconv.
  { destruct (sql_except_raises (A := DataContainer * option (list string)) q d e w2)
      as [x ->]. done. }
  intros Hassign. by exists rel, names, dc, w1, w2.
Qed.

Lemma get_ral_calls (self : Context) (q : string) (d : bool) (w w' : World)
    (rel : RelNode) (names : option (list string)) :
  _get_ral self q d w = (inr (rel, names), w') →
  ∃ schema,
    _prepare_schema self (store w) = inr schema ∧
    store w' = store w ∧
    trace w' =
      trace w ++
      [NewGenerator schema; GetSqlNode q; GetValidatedNode; GetRelationalAlgebra;
       GetOptimizedRelationalAlgebra; GetDialect] ++
      (if d then [Print (getRelationalAlgebraString
                           (new_RelationalAlgebraGenerator schema) rel)]
       else []).
Proof.
  unfold _get_ral. run_M.
  destruct (_prepare_schema self (store w)) as [?|schema]; [done|].
  set (g := new_RelationalAlgebraGenerator schema).
  destruct (getSqlNode g q) as [?|n]; [done|].
  destruct (getValidatedNode g n) as [?|v]; [done|].
  destruct (getRelationalAlgebra g v) as [?|r]; [done|].
  destruct (getOptimizedRelationalAlgebra g r) as [?|r']; [done|].
  destruct d; intros ?; simplify_eq; exists schema; cbn;
    by rewrite <-?app_assoc, ?app_nil_r.
Qed.

(** X9. The recorded calls of a successful query, in order: the
    generator is created with the schema, then the stage methods of the
    generator are called (the query text is parsed, validated, turned into
    a plan and optimized), the dialect is read, the plan is printed if and
    only if [debug] is set, and then [RelConverter.convert] is called;
    each of these calls is made once. (What is read from the parse tree,
    and [rename] and [assign], are not calls the trace records.) *)
Theorem successful_query_calls
    (self : Context) (q : string) (d : bool) (w w' : World) (l : loc) :
  sql self q d w = (inr l, w') →
  ∃ schema rel,
    _prepare_schema self (store w) = inr schema ∧
    trace w' =
      trace w ++
      [NewGenerator schema; GetSqlNode q; GetValidatedNode; GetRelationalAlgebra;
       GetOptimizedRelationalAlgebra; GetDialect] ++
      (if d then [Print (getRelationalAlgebraString
                           (new_RelationalAlgebraGenerator schema) rel)]
       else []) ++
      [Convert].
Proof.
  intros (rel & names & dc & w1 & w2 & Hral & Hconv & Hassign)%sql_returns.
  apply get_ral_calls in Hral as (schema & Hschema & _ & Htrace).
  exists schema, rel. split; [done|].
  assert (Hw2 : trace w2 = trace w1 ++ [Convert]).
  { revert Hconv. unfold convert.
    destruct (RelConverter_convert rel self (store w1)) as [?|[??]]; [done|].
    by intros [= _ <-]. }
  assert (Hw' : trace w' = trace w2).
  { revert Hassign. unfold assign.
    destruct (list_find _ _) as [[? [??]]|]; [done|]. by intros [= _ <-]. }
  rewrite Hw', Hw2, Htrace. by rewrite <-!app_assoc.
Qed.

(** X10. A query that the parser rejects goes no further: after the
    generator has been created and the text handed to the parser, no stage
    method of the generator and no conversion is called, no object is
    created, and [sql] raises. For a parse or validation exception it
    raises the [ParsingException] (cause iff [debug]), or what the
    constructor of that exception raises; any other exception of the
    parser it raises as it is. *)
Theorem rejected_query_stops
    (self : Context) (q : string) (d : bool) (w : World)
    (schema : DaskSchema) (e : JavaException) :
  _prepare_schema self (store w) = inr schema →
  getSqlNode (new_RelationalAlgebraGenerator schema) q = inl e →
  ∃ x,
    sql self q d w =
      (inl x, {| store := store w;
                 trace := trace w ++ [NewGenerator schema; GetSqlNode q] |}) ∧
    x = if is_parse_or_validation e
        then match ParsingException_init q (message e) with
             | None => ParsingException q (message e) (if d then Some e else None)
             | Some x' => x'
             end
        else Java e.
Proof.
  intros Hschema Hparse. unfold sql, sql_try, _get_ral. run_M.
  rewrite Hschema. cbn [store trace]. rewrite Hparse. cbn.
  rewrite <-app_assoc. destruct (is_parse_or_validation e); [|by eexists].
  destruct (ParsingException_init q (message e)); by eexists.
Qed.

(** ** The renaming dict of [sql] *)

Lemma foldl_set_entry {V A B : Type} (key : A * B → string) (val : A * B → V)
    (l : list (A * B)) (d : PyDict.dict V) (k : string) (v : V) :
  PyDict.get k (foldl (λ d x, PyDict.set (key x) (val x) d) d l) = Some v →
  PyDict.get k d = Some v ∨ ∃ x, x ∈ l ∧ key x = k ∧ v = val x.
Proof.
  revert d. induction l as [|x l IH]; intros d; cbn [foldl]; [by left|].
  intros [Hd|(y & Hy & Hk & Hv)]%IH.
  - rewrite dict_get_set in Hd. destruct (decide (key x = k)) as [Hk|Hk].
    + injection Hd as <-. right. exists x. split; [apply list_elem_of_here | done].
    + by left.
  - right. exists y. split; [by apply list_elem_of_further | done].
Qed.

Lemma foldl_set_domain {V A B : Type} (key : A * B → string) (val : A * B → V)
    (l : list (A * B)) (d : PyDict.dict V) (k : string) :
  k ∈ key <$> l →
  is_Some (PyDict.get k (foldl (λ d x, PyDict.set (key x) (val x) d) d l)).
Proof.
  revert d. induction l as [|x l IH]; intros d Hk.
  - by apply elem_of_nil in Hk.
  - cbn [foldl]. destruct (decide (k ∈ key <$> l)) as [Hin|Hnin]; [by apply IH|].
    rewrite fmap_cons in Hk. apply elem_of_cons in Hk as [->|Hk]; [|done].
    rewrite foldl_set_absent by done. rewrite dict_get_set_eq. by eexists.
Qed.

Lemma zip_fst_take (cols select_names : list string) :
  (zip cols select_names).*1 = take (length select_names) cols.
Proof.
  revert select_names. induction cols as [|c cols IH]; intros [|n names]; cbn;
    try done.
  by rewrite IH.
Qed.

(** X11. What the renaming dict of [sql] holds, for any two lists: its
    keys are the column names that [zip] pairs with a captured name (those
    at positions below the length of the captured list); a key that does
    not start with [EXPR$] has itself as value, and a key that starts with
    [EXPR$] has one of the captured names as value. *)
Theorem rename_mapping_entries (cols select_names : list string) (k : string) :
  (is_Some (PyDict.get k (rename_mapping cols select_names)) ↔
   k ∈ take (length select_names) cols) ∧
  (∀ v, PyDict.get k (rename_mapping cols select_names) = Some v →
        if startswith k "EXPR$" then v ∈ select_names else v = k).
Proof.
  rewrite rename_mapping_fold, <-zip_fst_take. split; [split|].
  - intros [v Hv]. apply foldl_set_entry in Hv as [Hv|(x & Hx & <- & _)]; [done|].
    by apply list_elem_of_fmap_2.
  - apply foldl_set_domain.
  - intros v Hv. apply foldl_set_entry in Hv as [Hv|([c n] & Hx & <- & ->)]; [done|].
    cbn [fst snd]. destruct (startswith c "EXPR$"); cbn [negb]; [|done].
    by apply elem_of_zip_r in Hx.
Qed.

Lemma rename_id (m : PyDict.dict string) (cc : ColumnContainer) :
  (∀ l v, l ∈ cc_columns cc → PyDict.get l m = Some v → v = l) →
  rename m cc = cc.
Proof.
  destruct cc as [mp]. unfold rename, cc_columns. cbn. intros Hm. f_equal.
  induction mp as [|[lg ph] mp IH]; [done|].
  rewrite fmap_cons. f_equal.
  - cbn. f_equal. destruct (PyDict.get lg m) as [v|] eqn:Hv; [|done]. cbn.
    apply (Hm lg v); [|done]. rewrite fmap_cons. apply list_elem_of_here.
  - apply IH. intros l v Hl. apply Hm. rewrite fmap_cons.
    by apply list_elem_of_further.
Qed.

(** X12. A result without [EXPR$] columns is returned under its own
    names: if no Logical Name of the converter's container starts with
    [EXPR$], the container [sql] hands to [assign] is the converter's,
    whatever names were captured. *)
Theorem humanize_without_synthetic_names
    (dc : DataContainer) (select_names : option (list string)) :
  Forall (λ c, startswith c "EXPR$" = false) (cc_columns (column_container dc)) →
  humanize dc select_names = dc.
Proof.
  intros Hcols. unfold humanize. destruct (truthy select_names); [|done].
  destruct dc as [l cc]. cbn in *. f_equal. apply rename_id.
  intros lg v Hlg Hv. rewrite Forall_forall in Hcols.
  apply (proj2 (rename_mapping_entries _ _ lg)) in Hv.
  by rewrite (Hcols lg Hlg) in Hv.
Qed.

(** X13. Columns of one name are renamed alike, by the last pair: if the
    name [c] stands at position [j] with captured name [n], and at no
    later position that has a captured name, then the dict maps [c] to [n]
    if [c] starts with [EXPR$] (and to itself otherwise), so every column
    named [c], at whatever position, is handed to [assign] under that
    name. *)
Theorem duplicate_names_last_pair_wins
    (dc : DataContainer) (select_names : list string) (j : nat) (c n : string) :
  let cols := cc_columns (column_container dc) in
  cols !! j = Some c →
  select_names !! j = Some n →
  (∀ k, j < k → cols !! k = Some c → select_names !! k = None) →
  PyDict.get c (rename_mapping cols select_names) =
    Some (if startswith c "EXPR$" then n else c) ∧
  ∀ i, cols !! i = Some c →
       cc_columns (column_container (humanize dc (Some select_names))) !! i =
         Some (if startswith c "EXPR$" then n else c).
Proof.
  cbn zeta. set (cols := cc_columns (column_container dc)).
  intros Hc Hn Hlast.
  assert (Hget : PyDict.get c (rename_mapping cols select_names) =
                   Some (if startswith c "EXPR$" then n else c)).
  { rewrite rename_mapping_fold.
    assert (Hj : zip cols select_names !! j = Some (c, n))
      by by rewrite lookup_zip_with, Hc, Hn.
    rewrite <-(take_drop_middle _ _ _ Hj), foldl_app. cbn [foldl].
    rewrite foldl_set_absent.
    - rewrite dict_get_set_eq. cbn [fst snd]. by destruct (startswith c "EXPR$").
    - cbn [fst]. intros [k Hk]%list_elem_of_lookup.
      rewrite list_lookup_fmap, lookup_drop, <-list_lookup_fmap in Hk.
      apply zip_fst_lookup in Hk as [Hk [n' Hn']].
      rewrite Hlast in Hn'; [done | lia | done]. }
  split; [done|]. intros i Hi. unfold humanize.
  destruct select_names as [|n0 names]; [done|]. cbn [truthy].
  change (default [] (Some (n0 :: names))) with (n0 :: names).
  cbn [column_container]. rewrite rename_columns, list_lookup_fmap.
  fold cols. rewrite Hi. cbn. by rewrite Hget.
Qed.

(** ** When the schema can be built *)

Lemma table_of_inl (st : Store) (name : string) (dc : DataContainer) (e : Exception) :
  table_of st name dc = inl e →
  ∃ c, c ∈ columns (deref st (df dc)) ∧
       e = TypeMappingError (dtype (getitem (deref st (df dc)) c)) ∧
       python_to_sql_type (dtype (getitem (deref st (df dc)) c)) = None.
Proof.
  set (frame := deref st (df dc)).
  set (g := λ c, match to_sql_type (dtype (getitem frame c)) with
                 | inl e => inl e
                 | inr t => inr (c, t)
                 end : Result (string * SqlType)).
  set (add := λ (ct : string * SqlType) tb, addColumn ct.1 ct.2 tb).
  unfold table_of. fold frame. intros Hloop.
  apply (for_each_inl _ g add) in Hloop as (c & Hc & Hg).
  - exists c. split; [done|]. revert Hg. unfold g, to_sql_type.
    destruct (python_to_sql_type _); [done|]. by intros [= <-].
  - intros c tb. unfold g. by destruct (to_sql_type _).
Qed.

Lemma function_of_inl (name : string) (fd : FunctionDescription) (e : Exception) :
  function_of name fd = inl e →
  ∃ t, (t = return_type fd ∨ ∃ p, p ∈ parameters fd ∧ t = p.2) ∧
       e = TypeMappingError t ∧ python_to_sql_type t = None.
Proof.
  set (g := λ p : string * DType,
              match to_sql_type p.2 with
              | inl e => inl e
              | inr t => inr (p.1, t, false)
              end : Result (string * SqlType * bool)).
  set (add := λ (sp : string * SqlType * bool) fn, addParameter sp.1.1 sp.1.2 sp.2 fn).
  unfold function_of, to_sql_type at 1.
  destruct (python_to_sql_type (return_type fd)) as [rt|] eqn:Hrt; cbn.
  - unfold _add_parameters_from_description. intros Hloop.
    apply (for_each_inl _ g add) in Hloop as (p0 & Hp & Hg).
    + exists p0.2. split; [right; by exists p0|]. revert Hg. unfold g, to_sql_type.
      destruct (python_to_sql_type p0.2); [done|]. by intros [= <-].
    + intros [pn pt] fn. unfold g. cbn. by destruct (to_sql_type pt).
  - intros [= <-]. exists (return_type fd). split_and!; [by left | done..].
Qed.

Lemma tables_loop_inl (self : Context) (st : Store) (s : DaskSchema) (e : Exception) :
  for_each (PyDict.items (tables self))
    (λ '(name, dc) schema, table ← table_of st name dc; mret (addTable table schema))
    s = inl e →
  ∃ t, e = TypeMappingError t ∧ python_to_sql_type t = None ∧ column_type self st t.
Proof.
  intros Hloop.
  apply (for_each_inl _ (λ entry, table_of st entry.1 entry.2) addTable)
    in Hloop as ([name dc] & Hin & He); [|by intros [??] ?].
  apply table_of_inl in He as (c & Hc & -> & Hnone).
  eexists. split_and!; [done..|]. by exists name, dc, c.
Qed.

Lemma prepare_schema_inl (self : Context) (st : Store) (e : Exception) :
  _prepare_schema self st = inl e →
  ∃ t, e = TypeMappingError t ∧ python_to_sql_type t = None ∧
       (column_type self st t ∨ function_type self t).
Proof.
  unfold _prepare_schema.
  destruct (for_each (PyDict.items (tables self)) _ _) as [e'|s1] eqn:Hloop1; cbn.
  - intros [= <-]. apply tables_loop_inl in Hloop1 as (t & -> & Ht & Hcol).
    exists t. split_and!; [done..|by left].
  - intros Hloop2.
    apply (for_each_inl _ (λ entry, function_of entry.1 entry.2) addFunction)
      in Hloop2 as ([name fd] & Hin & He); [|by intros [??] ?].
    apply function_of_inl in He as (t & Ht & -> & Hnone).
    exists t. split_and!; [done..|]. right. by exists name, fd.
Qed.

(** X14. [_prepare_schema] succeeds exactly when every registered column,
    return and parameter type has a SQL type. When it fails, the error
    names a type without a SQL type that is registered: the dtype of a
    column of a registered table, or the return or a parameter type of a
    registered function. The tables come first: if a column of a
    registered table has no SQL type, the error names such a column's
    dtype, whatever the functions are. *)
Theorem schema_built_iff_mappable (self : Context) (st : Store) :
  ((∃ schema, _prepare_schema self st = inr schema) ↔
   ¬ has_unmappable_type self st) ∧
  (∀ e, _prepare_schema self st = inl e →
        ∃ t, e = TypeMappingError t ∧ python_to_sql_type t = None ∧
             (column_type self st t ∨ function_type self t)) ∧
  ((∃ t, column_type self st t ∧ python_to_sql_type t = None) →
   ∃ t, column_type self st t ∧ python_to_sql_type t = None ∧
        _prepare_schema self st = inl (TypeMappingError t)).
Proof.
  split_and!.
  - split.
    + intros [schema Hschema]. pose proof (prepare_schema_cases self st) as Hcases.
      rewrite Hschema in Hcases. by eapply describes_mappable.
    + intros Hok. destruct (_prepare_schema self st) as [e|schema] eqn:Hschema;
        [|by eexists].
      destruct Hok.
      apply prepare_schema_inl in Hschema
        as (t & _ & Ht & [(name & dc & c & Hin & Hc & ->)|(name & fd & Hin & Hfd)]).
      * left. by exists name, dc, c.
      * right. exists name, fd. split; [done|].
        destruct Hfd as [->|(p0 & Hp & ->)]; [by left | right; by exists p0].
  - apply prepare_schema_inl.
  - intros (t & (name & dc & c & Hin & Hc & ->) & Ht). unfold _prepare_schema.
    destruct (for_each (PyDict.items (tables self)) _ _) as [e|s1] eqn:Hloop1; cbn.
    + apply tables_loop_inl in Hloop1 as (t' & -> & Ht' & Hcol). by exists t'.
    + apply (for_each_inr _ (λ entry, table_of st entry.1 entry.2) addTable)
        in Hloop1 as (tbs & Htbs & _); [|by intros [??] ?].
      apply list_elem_of_lookup in Hin as [i Hi].
      destruct (Forall2_lookup_l _ _ _ _ _ Htbs Hi) as (tb & _ & Htb).
      cbn in Htb. pose proof (table_of_cases st name dc) as Hcases.
      rewrite Htb in Hcases. destruct Hcases as [_ Hcols].
      apply list_elem_of_lookup in Hc as [j Hj].
      destruct (Forall2_lookup_l _ _ _ _ _ Hcols Hj) as (ct & _ & _ & Hsome).
      cbn [fst snd] in Hsome. congruence.
Qed.

(** ** The debug flag *)

Lemma get_ral_debug (self : Context) (q : string) (d : bool) (w w1 : World)
    (rel : RelNode) (names : option (list string)) :
  _get_ral self q d w = (inr (rel, names), w1) →
  ∃ w1', _get_ral self q (negb d) w = (inr (rel, names), w1') ∧
         store w1' = store w1.
Proof.
  unfold _get_ral. run_M.
  destruct (_prepare_schema self (store w)) as [?|schema]; [done|].
  set (g := new_RelationalAlgebraGenerator schema).
  destruct (getSqlNode g q) as [?|n]; [done|].
  destruct (getValidatedNode g n) as [?|v]; [done|].
  destruct (getRelationalAlgebra g v) as [?|r]; [done|].
  destruct (getOptimizedRelationalAlgebra g r) as [?|r']; [done|].
  destruct d; intros ?; simplify_eq; by eexists.
Qed.

Lemma convert_reads_store (rel : RelNode) (self : Context) (w1 w1' w2 : World)
    (dc : DataContainer) :
  convert rel self w1 = (inr dc, w2) → store w1' = store w1 →
  ∃ w2', convert rel self w1' = (inr dc, w2') ∧ store w2' = store w2.
Proof.
  unfold convert. intros Hconv ->.
  destruct (RelConverter_convert rel self (store w1)) as [?|[dc' st']]; [done|].
  injection Hconv as <- <-. by eexists.
Qed.

Lemma assign_reads_store (dc : DataContainer) (w2 w2' w3 : World) (l : loc) :
  assign dc w2 = (inr l, w3) → store w2' = store w2 →
  ∃ w3', assign dc w2' = (inr l, w3') ∧ store w3' = store w3.
Proof.
  unfold assign. intros Hassign ->.
  destruct (list_find _ _) as [[? [??]]|]; [done|].
  injection Hassign as <- <-. by eexists.
Qed.

Lemma sql_of_parts (self : Context) (q : string) (d : bool) (w w1 w2 : World)
    (rel : RelNode) (names : option (list string)) (dc : DataContainer) :
  _get_ral self q d w = (inr (rel, names), w1) →
  convert rel self w1 = (inr dc, w2) →
  sql self q d w = assign (humanize dc names) w2.
Proof. intros Hral Hconv. unfold sql, sql_try. run_M. by rewrite Hral, Hconv. Qed.

(** X15. The debug flag does not change the answer: a query that returns
    a dataframe with [debug] set one way returns the same dataframe
    object, in the same store, with it set the other way; the two runs
    differ in what is printed only. *)
Theorem debug_does_not_change_result
    (self : Context) (q : string) (d : bool) (w w' : World) (l : loc) :
  sql self q d w = (inr l, w') →
  ∃ w'', sql self q (negb d) w = (inr l, w'') ∧ store w'' = store w'.
Proof.
  intros (rel & names & dc & w1 & w2 & Hral & Hconv & Hassign)%sql_returns.
  apply get_ral_debug in Hral as (w1' & Hral' & Hw1).
  destruct (convert_reads_store _ _ _ w1' _ _ Hconv Hw1) as (w2' & Hconv' & Hw2).
  destruct (assign_reads_store _ _ w2' _ _ Hassign Hw2) as (w3' & Hassign' & Hw3).
  exists w3'. split; [|done]. by rewrite (sql_of_parts _ _ _ _ _ _ _ _ _ Hral' Hconv').
Qed.

(** ** Dataframes over sequences of calls *)

Lemma keeps_objects_same_store {A} (m : M A) :
  (∀ w, store (m w).2 = store w) → keeps_objects m.
Proof. intros Hm w. by rewrite Hm. Qed.

Lemma keeps_objects_alloc (df0 : DataFrame) (st : Store) :
  next_loc st ≤ next_loc (alloc df0 st).2 ∧
  ∀ l, allocated st l → deref (alloc df0 st).2 l = deref st l.
Proof. split; [cbn; lia | intros l; apply alloc_old]. Qed.

Lemma keeps_objects_bind {A B} (m : M A) (k : A → M B) :
  keeps_objects m → (∀ x, keeps_objects (k x)) → keeps_objects (m ≫= k).
Proof.
  intros Hm Hk w. destruct (Hm w) as [Hn Hd]. run_M.
  destruct (m w) as [[e|x] w1]; [done|]. cbn [snd] in Hn, Hd.
  destruct (Hk x w1) as [Hn' Hd']. split; [lia|].
  intros l Hl. rewrite Hd', Hd; [done..|]. unfold allocated in *. lia.
Qed.

Lemma keeps_objects_try_except {A} (m : M A) (h : Exception → M A) :
  keeps_objects m → (∀ e, keeps_objects (h e)) → keeps_objects (try_except m h).
Proof.
  intros Hm Hh w. destruct (Hm w) as [Hn Hd]. run_M.
  destruct (m w) as [[e|x] w1]; [|done]. cbn [snd] in Hn, Hd.
  destruct (Hh e w1) as [Hn' Hd']. split; [lia|].
  intros l Hl. rewrite Hd', Hd; [done..|]. unfold allocated in *. lia.
Qed.

Lemma keeps_objects_get_ral (self : Context) (q : string) (d : bool) :
  keeps_objects (_get_ral self q d).
Proof.
  unfold _get_ral.
  apply keeps_objects_bind; [by apply keeps_objects_same_store|]. intros schema.
  repeat (apply keeps_objects_bind; [by apply keeps_objects_same_store | intros ?]).
  apply keeps_objects_bind; [|intros ?; by apply keeps_objects_same_store].
  destruct d; by apply keeps_objects_same_store.
Qed.

Lemma keeps_objects_convert (rel : RelNode) (self : Context) :
  converter_keeps_objects → keeps_objects (convert rel self).
Proof.
  intros Hconv w. unfold convert.
  destruct (RelConverter_convert rel self (store w)) as [e|[dc st']] eqn:Hrun; [done|].
  by apply (Hconv _ _ _ _ _ Hrun).
Qed.

Lemma keeps_objects_assign (dc : DataContainer) : keeps_objects (assign dc).
Proof.
  intros w. unfold assign. destruct (list_find _ _) as [[? [??]]|]; [done|].
  apply keeps_objects_alloc.
Qed.

Lemma keeps_objects_sql (self : Context) (q : string) (d : bool) :
  converter_keeps_objects → keeps_objects (sql self q d).
Proof.
  intros Hconv. unfold sql.
  apply keeps_objects_bind; [|intros [dc names]; apply keeps_objects_assign].
  apply keeps_objects_try_except.
  - unfold sql_try. apply keeps_objects_bind; [apply keeps_objects_get_ral|].
    intros [rel names]. apply keeps_objects_bind; [by apply keeps_objects_convert|].
    intros dc. by apply keeps_objects_same_store.
  - intros e w. by destruct (sql_except_raises
      (A := DataContainer * option (list string)) q d e w) as [x ->].
Qed.

Lemma run_keeps_objects (ops : list operation) (self : Context) (w : World) :
  converter_keeps_objects →
  next_loc (store w) ≤ next_loc (store (run ops self w).2) ∧
  ∀ l, allocated (store w) l →
       deref (store (run ops self w).2) l = deref (store w) l.
Proof.
  intros Hconv. revert self w. induction ops as [|op ops IH]; intros self w; [done|].
  cbn [run].
  assert (Hop : next_loc (store w) ≤ next_loc (store (perform op self w).2) ∧
                ∀ l, allocated (store w) l →
                     deref (store (perform op self w).2) l = deref (store w) l).
  { destruct op as [l name|g name params ret|g name params ret|q d];
      cbn [perform]; [|done..|by apply keeps_objects_sql].
    rewrite register_dask_table_run. apply keeps_objects_alloc. }
  destruct (perform op self w) as [self' w']. cbn [snd] in Hop.
  destruct Hop as [Hn Hd], (IH self' w') as [Hn' Hd']. split; [lia|].
  intros l Hl. rewrite Hd', Hd; [done..|]. unfold allocated in *. lia.
Qed.

(** X16. No call on a context changes a dataframe that exists: if the
    converter's plugins only create dataframes, then over any sequence of
    registrations and queries every dataframe object that existed before
    still exists and holds what it held, the caller's dataframes and the
    registered copies alike. *)
Theorem existing_dataframes_untouched
    (ops : list operation) (self : Context) (w : World) (l : loc) :
  converter_keeps_objects →
  allocated (store w) l →
  allocated (store (run ops self w).2) l ∧
  deref (store (run ops self w).2) l = deref (store w) l.
Proof.
  intros Hconv Hl. destruct (run_keeps_objects ops self w Hconv) as [Hn Hd].
  split; [unfold allocated in *; lia | by apply Hd].
Qed.

(** X17. The copy made by a registration survives the calls that follow:
    if the converter's plugins only create dataframes, then after
    [register_dask_table] with the dataframe at [l] and name [n] and any
    further registrations and queries, the dataframe object the
    registration stored still holds what [l] held when it was registered;
    and if none of the further calls is a query or registers a table under
    [lower n], the table registry still holds, under [lower n], the
    container stored by the registration. *)
Theorem registered_table_survives
    (ops : list operation) (self : Context) (w : World) (l : loc) (n : string) :
  converter_keeps_objects →
  ∃ self' w',
    register_dask_table self l n w = (inr self', w') ∧
    deref (store (run ops self' w').2) (df (table_entry w l)) = deref (store w) l ∧
    (Forall (λ op, is_query op = false) ops →
     Forall (λ op, registered_table_key op ≠ Some (lower n)) ops →
     PyDict.get (lower n) (tables (run ops self' w').1) = Some (table_entry w l)).
Proof.
  intros Hconv. eexists _, _. rewrite register_dask_table_run.
  split; [reflexivity|].
  match goal with |- context [run ops ?s ?w0] =>
    destruct (run_keeps_objects ops s w0 Hconv) as [_ Hd] end.
  split.
  - rewrite Hd; [apply alloc_new|]. unfold allocated. cbn. lia.
  - intros Hqs Hops. rewrite run_tables_get by done. apply dict_get_set_eq.
Qed.

(** X18. When every column is paired, every synthetic name is renamed: if
    the converter's Logical Names are distinct and the captured list is at
    least as long as the column list, then at every position a name that
    starts with [EXPR$] is handed to [assign] as the captured name of that
    position, and any other name as it is. *)
Theorem aligned_names_are_all_humanized
    (dc : DataContainer) (select_names : list string) :
  let cols := cc_columns (column_container dc) in
  NoDup cols →
  length cols ≤ length select_names →
  renames_every_synthetic_name cols select_names
    (cc_columns (column_container (humanize dc (Some select_names)))).
Proof.
  cbn zeta. intros Hnd Hlen i c Hc.
  rewrite (humanize_columns dc select_names i c Hnd Hc).
  destruct (startswith c "EXPR$"); [|done].
  destruct (select_names !! i) as [n|] eqn:Hn; [by exists n|].
  apply lookup_ge_None in Hn. apply lookup_lt_Some in Hc. lia.
Qed.

End context.

Arguments register_dask_table {DType SqlType SeriesData Callable} lower self df name.
Arguments register_function {DType Callable} lower self f name parameters return_type.
Arguments register_aggregation {DType Callable} lower self f name parameters return_type.
Arguments init {DType Callable}.
Arguments _prepare_schema {DType SqlType SeriesData Callable} python_to_sql_type self st.
Arguments _get_ral {DType SqlType SeriesData Callable SqlNode RelNode Dialect}
  python_to_sql_type new_RelationalAlgebraGenerator get_java_class getSelectList
  toSqlString self sql debug.
Arguments convert {DType SqlType SeriesData Callable RelNode} RelConverter_convert rel self.
Arguments sql_try {DType SqlType SeriesData Callable SqlNode RelNode Dialect}
  python_to_sql_type new_RelationalAlgebraGenerator get_java_class getSelectList
  toSqlString RelConverter_convert self sql debug.
Arguments sql {DType SqlType SeriesData Callable SqlNode RelNode Dialect}
  python_to_sql_type new_RelationalAlgebraGenerator get_java_class getSelectList
  toSqlString RelConverter_convert ParsingException_init self sql debug.
Arguments assign {DType SqlType SeriesData} dc.
Arguments alloc {DType SeriesData} df st.
Arguments deref {DType SeriesData} st l.

(** * A small instance

    A context with one table [t(a, b)], a planner that knows three queries
    and whose select list is the validated one (with [*] expanded to the
    columns of [t]), and a converter that projects the table. It is what
    the examples below are run on. *)

Module Demo.

Definition DType : Type := string.
Definition SqlType : Type := string.
Definition SeriesData : Type := list nat.
Definition Callable : Type := string.
Definition Dialect : Type := unit.

Inductive SqlNode :=
  | Select (select_list : list string)
  | OrderBy (query : SqlNode)
  | Expression (text : string).

(** The columns a plan produces, over the table [t]. *)
Inductive RelNode :=
  | Project (outputs : list string).

Definition lower_ascii (a : Ascii.ascii) : Ascii.ascii :=
  let n := Ascii.nat_of_ascii a in
  if (65 <=? n) && (n <=? 90) then Ascii.ascii_of_nat (n + 32) else a.

Fixpoint lower (s : string) : string :=
  match s with
  | EmptyString => EmptyString
  | String a s' => String (lower_ascii a) (lower s')
  end.

Definition python_to_sql_type (t : DType) : option SqlType :=
  if decide (t = "int64") then Some "BIGINT"
  else if decide (t = "float64") then Some "DOUBLE"
  else None.

Definition parse (q : string) : JavaException + SqlNode :=
  if decide (q = "SELECT a + 1, b FROM t") then inr (Select ["`a` + 1"; "`b`"])
  else if decide (q = "SELECT *, a + 1 FROM t") then inr (Select ["*"; "`a` + 1"])
  else if decide (q = "SELECT a + 1 FROM t ORDER BY 1")
       then inr (OrderBy (Select ["`a` + 1"]))
  else inl (SqlParseException "Encountered an unexpected token").

Definition plan (n : SqlNode) : JavaException + RelNode :=
  match n with
  | Select ["`a` + 1"; "`b`"] => inr (Project ["EXPR$0"; "b"])
  | Select ["*"; "`a` + 1"] => inr (Project ["a"; "b"; "EXPR$2"])
  | OrderBy _ => inr (Project ["EXPR$0"])
  | _ => inl (JavaError "unsupported")
  end%string.

Definition new_RelationalAlgebraGenerator (schema : DaskSchema SqlType)
    : RelationalAlgebraGenerator SqlNode RelNode Dialect :=
  {| getSqlNode := parse;
     getValidatedNode n :=
       if decide (schema_tables _ schema = [])
       then inl (ValidationException "Object 't' not found")
       else inr n;
     getRelationalAlgebra := plan;
     getOptimizedRelationalAlgebra := inr;
     getDialect := ();
     getRelationalAlgebraString _ := "LogicalProject" |}.

Definition get_java_class (n : SqlNode) : string :=
  match n with
  | Select _ => "org.apache.calcite.sql.SqlSelect"
  | OrderBy _ => "org.apache.calcite.sql.SqlOrderBy"
  | Expression _ => "org.apache.calcite.sql.SqlBasicCall"
  end.

(** The select list as [_get_ral] reads it, after validation: the
    validator has replaced [*] by the columns of [t]. *)
Definition expand (item : string) : list string :=
  if decide (item = "*") then ["`t`.`a`"; "`t`.`b`"] else [item].

Definition getSelectList (n : SqlNode) : list SqlNode :=
  match n with
  | Select select_list => Expression <$> (select_list ≫= expand)
  | _ => []
  end.

Definition toSqlString (n : SqlNode) (_ : Dialect) : string :=
  match n with
  | Expression text => text
  | _ => ""
  end.

(** The converter: a new dataframe with the plan's outputs, computed from
    the registered table [t]. *)
Definition RelConverter_convert (rel : RelNode) (self : Context DType Callable)
    (st : Store DType SeriesData)
    : Result DType (DataContainer * Store DType SeriesData) :=
  match rel, PyDict.get "t" (tables _ _ self) with
  | Project outputs, Some dc =>
      let t := deref st (df dc) in
      let '(l, st') :=
        alloc {| columns := outputs; getitem _ := getitem _ _ t "a" |} st in
      inr ({| df := l; column_container := ColumnContainer_of outputs |}, st')
  | _, None => inl (ConversionError _ "Table 't' not found")
  end.

(** The constructor of [ParsingException]: it raises on the empty query
    text, which has no line to mark. *)
Definition ParsingException_init (sql message : string) : option (Exception DType) :=
  if decide (sql = "") then Some (PythonError _ "IndexError: list index out of range")
  else None.

Definition run_sql (self : Context DType Callable) (q : string) (debug : bool)
    : M DType SqlType SeriesData loc :=
  sql python_to_sql_type new_RelationalAlgebraGenerator get_java_class
    getSelectList toSqlString RelConverter_convert ParsingException_init
    self q debug.

Definition run_sql_try (self : Context DType Callable) (q : string) (debug : bool)
    : M DType SqlType SeriesData (DataContainer * option (list string)) :=
  sql_try python_to_sql_type new_RelationalAlgebraGenerator get_java_class
    getSelectList toSqlString RelConverter_convert self q debug.

(** The caller's dataframe, object 0 of the initial world. *)
Definition frame : DataFrame DType SeriesData :=
  {| columns := ["a"; "b"];
     getitem _ := {| dtype := "int64"; values := [1; 2; 3] |} |}.

Definition w0 : World DType SqlType SeriesData :=
  {| store := {| objects _ := frame; next_loc := 1 |}; trace := [] |}.

(** The context and the world after [register_dask_table(df, "T")]. *)
Definition registered : Context DType Callable * World DType SqlType SeriesData :=
  match register_dask_table lower init 0 "T" w0 with
  | (inr self, w) => (self, w)
  | (inl _, w) => (init, w)
  end.

Definition schema_t : DaskSchema SqlType :=
  {| schema_name := "schema";
     schema_tables :=
       [ {| table_name := "t";
            table_columns := [("a", "BIGINT"); ("b", "BIGINT")] |} ];
     schema_functions := [] |}.

Definition run_ops (ops : list (operation DType Callable))
    (self : Context DType Callable) (w : World DType SqlType SeriesData)
    : Context DType Callable * World DType SqlType SeriesData :=
  run _ _ _ _ _ _ _ lower python_to_sql_type new_RelationalAlgebraGenerator
    get_java_class getSelectList toSqlString RelConverter_convert
    ParsingException_init ops self w.

(** A converter whose plugins reject every plan. *)
Definition rejecting_convert (rel : RelNode) (self : Context DType Callable)
    (st : Store DType SeriesData)
    : Result DType (DataContainer * Store DType SeriesData) :=
  inl (Java _ (ValidationException "Cannot convert the plan")).

(** The context with a function whose return type has no SQL type. *)
Definition with_object_function : Context DType Callable :=
  register_function lower registered.1 "lambda" "f" [("x", "int64")] "object".

(** *** Examples *)

Example registered_key : PyDict.keys (tables _ _ registered.1) = ["t"].
Proof. reflexivity. Qed.

Example registered_schema :
  _prepare_schema python_to_sql_type registered.1 (store _ _ _ registered.2) =
    inr schema_t.
Proof. reflexivity. Qed.

Example order_by_is_not_humanized :
  ∃ l, (run_sql registered.1 "SELECT a + 1 FROM t ORDER BY 1" false registered.2).1
         = inr l ∧
       columns _ _ (deref (store _ _ _
         (run_sql registered.1 "SELECT a + 1 FROM t ORDER BY 1" false registered.2).2) l)
         = ["EXPR$0"].
Proof. by eexists. Qed.

(** Why the column list has to be name-unique: the comprehension builds
    a dict, so two columns of one name share one entry, the later one's. *)
Example duplicate_names_share_one_entry :
  rename_mapping ["EXPR$0"; "EXPR$0"] ["x"; "y"] = [("EXPR$0", "y")].
Proof. reflexivity. Qed.

(** *** Instances of the theorems *)

Example star_query_is_humanized :
  ∃ l, (run_sql registered.1 "SELECT *, a + 1 FROM t" false registered.2).1
         = inr l ∧
       columns _ _ (deref (store _ _ _
         (run_sql registered.1 "SELECT *, a + 1 FROM t" false registered.2).2) l)
         = ["a"; "b"; "`a` + 1"].
Proof. by eexists. Qed.

Lemma sql_humanizes_synthetic_names_witness :
  let q := "SELECT *, a + 1 FROM t" in
  let names := ["`t`.`a`"; "`t`.`b`"; "`a` + 1"] in
  let dc := {| df := 2; column_container := ColumnContainer_of ["a"; "b"; "EXPR$2"] |} in
  let w' := (run_sql_try registered.1 q false registered.2).2 in
  run_sql_try registered.1 q false registered.2 = (inr (dc, Some names), w') ∧
  NoDup (cc_columns (column_container dc)) ∧
  length (cc_columns (column_container dc)) ≤ length names ∧
  run_sql registered.1 q false registered.2 = assign (humanize dc (Some names)) w' ∧
  cc_columns (column_container (humanize dc (Some names))) = ["a"; "b"; "`a` + 1"] ∧
  renames_every_synthetic_name (cc_columns (column_container dc)) names
    (cc_columns (column_container (humanize dc (Some names)))).
Proof.
  cbn zeta.
  assert (Hnd : NoDup (cc_columns (column_container
            {| df := 2; column_container := ColumnContainer_of ["a"; "b"; "EXPR$2"] |}))).
  { apply (bool_decide_unpack _). reflexivity. }
  assert (Hlen : length (cc_columns (column_container
            {| df := 2; column_container := ColumnContainer_of ["a"; "b"; "EXPR$2"] |}))
          ≤ length ["`t`.`a`"; "`t`.`b`"; "`a` + 1"]) by (cbn; lia).
  pose proof (sql_humanizes_synthetic_names _ _ _ _ _ _ _
    python_to_sql_type new_RelationalAlgebraGenerator get_java_class
    getSelectList toSqlString RelConverter_convert ParsingException_init
    registered.1 "SELECT *, a + 1 FROM t" false registered.2
    (run_sql_try registered.1 "SELECT *, a + 1 FROM t" false registered.2).2
    {| df := 2; column_container := ColumnContainer_of ["a"; "b"; "EXPR$2"] |}
    ["`t`.`a`"; "`t`.`b`"; "`a` + 1"] eq_refl Hnd Hlen) as (Hsql & _ & _ & Hall).
  split_and!; [reflexivity | exact Hnd | exact Hlen | exact Hsql | reflexivity
              | exact Hall].
Defined.

Lemma sql_parsing_exception_witness :
  let e := SqlParseException "Encountered an unexpected token" in
  _prepare_schema python_to_sql_type registered.1 (store _ _ _ registered.2)
    = inr schema_t ∧
  planner_raises _ _ _ (new_RelationalAlgebraGenerator schema_t) "SELEC" e ∧
  planner_raises _ _ _ (new_RelationalAlgebraGenerator schema_t) "" e ∧
  is_parse_or_validation e = true ∧
  ParsingException_init "SELEC" (message e) = None ∧
  ParsingException_init "" (message e) =
    Some (PythonError _ "IndexError: list index out of range") ∧
  (∃ w' cause,
     run_sql registered.1 "SELEC" true registered.2 =
       (inl (ParsingException _ "SELEC" (message e) cause), w') ∧
     (cause = Some e ↔ true = true) ∧
     (cause = None ↔ true = false)) ∧
  (∃ w',
     run_sql registered.1 "" true registered.2 =
       (inl (PythonError _ "IndexError: list index out of range"), w')).
Proof.
  cbn zeta.
  assert (Hraise : ∀ q, parse q = inl (SqlParseException "Encountered an unexpected token") →
            planner_raises _ _ _ (new_RelationalAlgebraGenerator schema_t)
              q (SqlParseException "Encountered an unexpected token")).
  { intros q Hq. by apply raises_parsing. }
  split_and!; [reflexivity | exact (Hraise "SELEC" eq_refl)
              | exact (Hraise "" eq_refl)
              | reflexivity | reflexivity | reflexivity | |].
  - destruct (sql_parsing_exception _ _ _ _ _ _ _
      python_to_sql_type new_RelationalAlgebraGenerator get_java_class
      getSelectList toSqlString RelConverter_convert ParsingException_init
      registered.1 "SELEC" true registered.2 schema_t _
      eq_refl (Hraise "SELEC" eq_refl) eq_refl) as (w' & _ & Hok & _).
    exists w'. exact (Hok eq_refl).
  - destruct (sql_parsing_exception _ _ _ _ _ _ _
      python_to_sql_type new_RelationalAlgebraGenerator get_java_class
      getSelectList toSqlString RelConverter_convert ParsingException_init
      registered.1 "" true registered.2 schema_t _
      eq_refl (Hraise "" eq_refl) eq_refl) as (w' & _ & _ & Hfail).
    exists w'. exact (Hfail _ eq_refl).
Defined.

Lemma select_names_only_for_select_witness :
  let get_ral q :=
    _get_ral python_to_sql_type new_RelationalAlgebraGenerator get_java_class
      getSelectList toSqlString registered.1 q false registered.2 in
  let conv q rel := convert RelConverter_convert rel registered.1 (get_ral q).2 in
  let q1 := "SELECT a + 1 FROM t ORDER BY 1" in
  let dc1 := {| df := 2; column_container := ColumnContainer_of ["EXPR$0"] |} in
  let q2 := "SELECT *, a + 1 FROM t" in
  let rel2 := Project ["a"; "b"; "EXPR$2"] in
  let names2 := Some ["`t`.`a`"; "`t`.`b`"; "`a` + 1"] in
  let dc2 := {| df := 2; column_container := ColumnContainer_of ["a"; "b"; "EXPR$2"] |} in
  get_ral q1 = (inr (Project ["EXPR$0"], None), (get_ral q1).2) ∧
  conv q1 (Project ["EXPR$0"]) = (inr dc1, (conv q1 (Project ["EXPR$0"])).2) ∧
  get_ral q2 = (inr (rel2, names2), (get_ral q2).2) ∧
  conv q2 rel2 = (inr dc2, (conv q2 rel2).2) ∧
  (∃ sqlNode,
     parse q1 = inr sqlNode ∧
     (is_Some (None : option (list string)) ↔ get_java_class sqlNode = SqlSelect) ∧
     (get_java_class sqlNode ≠ SqlSelect →
        run_sql registered.1 q1 false registered.2
          = assign dc1 (conv q1 (Project ["EXPR$0"])).2)) ∧
  (∃ sqlNode,
     parse q2 = inr sqlNode ∧
     get_java_class sqlNode = SqlSelect ∧
     names2 = Some ((λ s, toSqlString s ()) <$> getSelectList sqlNode) ∧
     (is_Some names2 ↔ get_java_class sqlNode = SqlSelect)).
Proof.
  cbn zeta. split_and!; [reflexivity..| |].
  - destruct (select_names_only_for_select _ _ _ _ _ _ _
      python_to_sql_type new_RelationalAlgebraGenerator get_java_class
      getSelectList toSqlString RelConverter_convert ParsingException_init
      registered.1 "SELECT a + 1 FROM t ORDER BY 1" false registered.2 _ _
      (Project ["EXPR$0"]) None
      {| df := 2; column_container := ColumnContainer_of ["EXPR$0"] |}
      eq_refl eq_refl) as (schema & n & _ & Hn & _ & Hiff & Hskip).
    exists n. split_and!; [exact Hn | exact Hiff |].
    intros Hne. exact (proj2 (proj2 (Hskip Hne))).
  - destruct (select_names_only_for_select _ _ _ _ _ _ _
      python_to_sql_type new_RelationalAlgebraGenerator get_java_class
      getSelectList toSqlString RelConverter_convert ParsingException_init
      registered.1 "SELECT *, a + 1 FROM t" false registered.2 _ _
      (Project ["a"; "b"; "EXPR$2"]) (Some ["`t`.`a`"; "`t`.`b`"; "`a` + 1"])
      {| df := 2; column_container := ColumnContainer_of ["a"; "b"; "EXPR$2"] |}
      eq_refl eq_refl) as (schema & n & _ & Hn & Hlist & Hiff & _).
    assert (Hclass : get_java_class n = SqlSelect).
    { apply Hiff. by eexists. }
    exists n. split_and!; [exact Hn | exact Hclass | exact (Hlist Hclass) | exact Hiff].
Defined.


Lemma schema_rebuilt_on_every_query_witness :
  let q := "SELECT a + 1, b FROM t" in
  let w1 := (run_sql init q false w0).2 in
  let after := run_ops [RegisterDaskTable _ _ 0 "T"] init w1 in
  _prepare_schema python_to_sql_type (init (Callable := Callable)) (store _ _ _ w0) =
    inr {| schema_name := "schema"; schema_tables := []; schema_functions := [] |} ∧
  _prepare_schema python_to_sql_type after.1 (store _ _ _ after.2) = inr schema_t ∧
  describes _ _ _ _ python_to_sql_type after.1 (store _ _ _ after.2) schema_t ∧
  records_first _ _ _ (NewGenerator _ schema_t) (run_sql after.1 q false) after.2.
Proof.
  cbn zeta. split_and!; [reflexivity..| |].
  - exact (proj1 (schema_rebuilt_on_every_query _ _ _ _ _ _ _ lower
      python_to_sql_type new_RelationalAlgebraGenerator get_java_class
      getSelectList toSqlString RelConverter_convert ParsingException_init
      init [RegisterDaskTable _ _ 0 "T"] "SELECT a + 1, b FROM t"
      "SELECT a + 1, b FROM t" false false w0)).
  - exact (proj2 (schema_rebuilt_on_every_query _ _ _ _ _ _ _ lower
      python_to_sql_type new_RelationalAlgebraGenerator get_java_class
      getSelectList toSqlString RelConverter_convert ParsingException_init
      init [RegisterDaskTable _ _ 0 "T"] "SELECT a + 1, b FROM t"
      "SELECT a + 1, b FROM t" false false w0)).
Defined.

Lemma unmappable_type_fails_before_parsing_witness :
  let self := register_function lower registered.1 "lambda" "f" [("x", "int64")] "object" in
  has_unmappable_type _ _ _ _ python_to_sql_type self (store _ _ _ registered.2) ∧
  ∃ t,
    python_to_sql_type t = None ∧
    _prepare_schema python_to_sql_type self (store _ _ _ registered.2) =
      inl (TypeMappingError _ t) ∧
    _get_ral python_to_sql_type new_RelationalAlgebraGenerator get_java_class
      getSelectList toSqlString self "SELECT f(a) FROM t" false registered.2 =
      (inl (TypeMappingError _ t), registered.2) ∧
    run_sql self "SELECT f(a) FROM t" false registered.2 =
      (inl (TypeMappingError _ t), registered.2).
Proof.
  cbn zeta.
  assert (Hbad : has_unmappable_type _ _ _ _ python_to_sql_type
            (register_function lower registered.1 "lambda" "f" [("x", "int64")] "object")
            (store _ _ _ registered.2)).
  { right. eexists "f", _. split; [apply list_elem_of_here | by left]. }
  split; [exact Hbad|].
  exact (unmappable_type_fails_before_parsing _ _ _ _ _ _ _
    python_to_sql_type new_RelationalAlgebraGenerator get_java_class
    getSelectList toSqlString RelConverter_convert ParsingException_init
    _ "SELECT f(a) FROM t" false registered.2 Hbad).
Defined.

Lemma register_dask_table_copies_witness :
  allocated _ _ (store _ _ _ w0) 0 ∧
  ∃ (self' : Context DType Callable) (w' : World DType SqlType SeriesData) dc,
    register_dask_table lower init 0 "T" w0 = (inr self', w') ∧
    PyDict.get "t" (tables _ _ self') = Some dc ∧
    df dc ≠ 0 ∧
    deref (store _ _ _ w') (df dc) = frame ∧
    column_container dc = ColumnContainer_of ["a"; "b"] ∧
    ∀ changes : list (DataFrame DType SeriesData),
      deref (foldr (mutate DType SeriesData 0) (store _ _ _ w') changes) (df dc)
        = frame ∧
      PyDict.get "t" (tables _ _ self') = Some dc.
Proof.
  assert (Hl : allocated _ _ (store _ _ _ w0) 0) by (unfold allocated; cbn; lia).
  split; [exact Hl|].
  exact (register_dask_table_copies DType SqlType SeriesData Callable lower
    init w0 0 "T" Hl).
Defined.

Lemma registration_frame_witness :
  "u" ≠ lower "T" ∧
  (let self' := register_function lower registered.1 "lambda" "T" [] "int64" in
   PyDict.get "u" (functions _ _ self') = PyDict.get "u" (functions _ _ registered.1) ∧
   tables _ _ self' = tables _ _ registered.1 ∧
   aggregations _ _ self' = aggregations _ _ registered.1).
Proof.
  assert (Hne : "u" ≠ lower "T") by done.
  split; [exact Hne|].
  exact (proj1 (proj2 (registration_frame DType SqlType SeriesData Callable lower
    registered.1 w0 0 "lambda" "T" [] "int64" "u" Hne))).
Defined.

(** *** Instances of the further properties *)

Lemma converter_keeps :
  converter_keeps_objects _ _ _ _ RelConverter_convert.
Proof.
  intros rel self st dc st'. unfold RelConverter_convert.
  destruct rel as [outputs], (PyDict.get "t" (tables _ _ self)) as [dc0|]; [|done].
  intros [= <- <-]. split; [cbn; lia | intros l Hl; by apply alloc_old].
Qed.

Lemma later_registration_shadows_witness :
  lower "FAGG" = lower "fagg" ∧
  register_function lower
    (register_aggregation lower (init (DType := DType)) "dd.Aggregation" "FAGG"
       [("x", "float64")] "float64")
    "lambda" "fagg" [("x", "int64")] "int64"
  = register_function lower init "lambda" "fagg" [("x", "int64")] "int64".
Proof.
  split; [reflexivity|].
  exact (proj1 (proj2 (later_registration_shadows DType Callable lower init
    "dd.Aggregation" "lambda" "FAGG" "fagg" [("x", "float64")] [("x", "int64")]
    "float64" "int64" eq_refl))).
Defined.

Lemma registrations_commute_witness :
  lower "F" ≠ lower "G" ∧
  PyDict.keys (functions _ _
    (register_aggregation lower
       (register_function lower (init (DType := DType)) "lambda" "F" [] "int64")
       "dd.Aggregation" "G" [] "float64")) ≡ₚ
  PyDict.keys (functions _ _
    (register_function lower
       (register_aggregation lower init "dd.Aggregation" "G" [] "float64")
       "lambda" "F" [] "int64")).
Proof.
  assert (Hne : lower "F" ≠ lower "G") by done.
  split; [exact Hne|].
  exact (proj1 (proj2 (registrations_commute DType Callable lower init
    "lambda" "dd.Aggregation" "F" "G" [] [] "int64" "float64" Hne))).
Defined.

Lemma table_entry_persists_witness :
  let ops := [RegisterFunction DType Callable "lambda" "T" [] "int64";
              RegisterDaskTable _ _ 0 "u";
              RegisterAggregation _ _ "dd.Aggregation" "t" [] "float64"] in
  Forall (λ op, is_query _ _ op = false) ops ∧
  Forall (λ op, registered_table_key _ _ lower op ≠ Some "t") ops ∧
  PyDict.get "t" (tables _ _ (run_ops ops registered.1 registered.2).1) =
    PyDict.get "t" (tables _ _ registered.1).
Proof.
  cbn zeta.
  assert (Hnone : Forall (λ op, is_query _ _ op = false)
            [RegisterFunction DType Callable "lambda" "T" [] "int64";
             RegisterDaskTable _ _ 0 "u";
             RegisterAggregation _ _ "dd.Aggregation" "t" [] "float64"]).
  { by repeat constructor. }
  assert (Hops : Forall (λ op, registered_table_key _ _ lower op ≠ Some "t")
            [RegisterFunction DType Callable "lambda" "T" [] "int64";
             RegisterDaskTable _ _ 0 "u";
             RegisterAggregation _ _ "dd.Aggregation" "t" [] "float64"]).
  { by repeat constructor. }
  split_and!; [exact Hnone | exact Hops |].
  exact (table_entry_persists _ _ _ _ _ _ _ lower
    python_to_sql_type new_RelationalAlgebraGenerator get_java_class
    getSelectList toSqlString RelConverter_convert ParsingException_init
    _ registered.1 registered.2 "t" Hnone Hops).
Defined.

Lemma other_errors_pass_through_witness :
  let e := TypeMappingError DType "object" in
  run_sql_try with_object_function "SELECT f(a) FROM t" false registered.2 =
    (inl e, registered.2) ∧
  (∀ je, e = Java _ je → is_parse_or_validation je = false) ∧
  run_sql with_object_function "SELECT f(a) FROM t" false registered.2 =
    (inl e, registered.2).
Proof.
  cbn zeta.
  assert (He : ∀ je, TypeMappingError DType "object" = Java _ je →
                     is_parse_or_validation je = false) by done.
  split_and!; [reflexivity | exact He |].
  exact (other_errors_pass_through _ _ _ _ _ _ _
    python_to_sql_type new_RelationalAlgebraGenerator get_java_class
    getSelectList toSqlString RelConverter_convert ParsingException_init
    with_object_function "SELECT f(a) FROM t" false registered.2 registered.2
    _ eq_refl He).
Defined.

Lemma converter_exceptions_translated_witness :
  let q := "SELECT a + 1, b FROM t" in
  let je := ValidationException "Cannot convert the plan" in
  let get_ral :=
    _get_ral python_to_sql_type new_RelationalAlgebraGenerator get_java_class
      getSelectList toSqlString registered.1 q false registered.2 in
  let conv := convert rejecting_convert (Project ["EXPR$0"; "b"]) registered.1 get_ral.2 in
  get_ral = (inr (Project ["EXPR$0"; "b"], Some ["`a` + 1"; "`b`"]), get_ral.2) ∧
  conv = (inl (Java _ je), conv.2) ∧
  is_parse_or_validation je = true ∧
  ParsingException_init q (message je) = None ∧
  sql python_to_sql_type new_RelationalAlgebraGenerator get_java_class
    getSelectList toSqlString rejecting_convert ParsingException_init
    registered.1 q false registered.2 =
    (inl (ParsingException _ q "Cannot convert the plan" None), conv.2).
Proof.
  cbn zeta. split_and!; [reflexivity..|].
  exact (converter_exceptions_translated _ _ _ _ _ _ _
    python_to_sql_type new_RelationalAlgebraGenerator get_java_class
    getSelectList toSqlString rejecting_convert ParsingException_init
    registered.1 "SELECT a + 1, b FROM t" false registered.2 _ _
    (Project ["EXPR$0"; "b"]) (Some ["`a` + 1"; "`b`"])
    (ValidationException "Cannot convert the plan") eq_refl eq_refl eq_refl eq_refl).
Defined.

Lemma successful_query_calls_witness :
  let q := "SELECT a + 1, b FROM t" in
  let r := run_sql registered.1 q true registered.2 in
  r = (inr 3, r.2) ∧
  ∃ schema rel,
    _prepare_schema python_to_sql_type registered.1 (store _ _ _ registered.2) =
      inr schema ∧
    trace _ _ _ r.2 =
      trace _ _ _ registered.2 ++
      [NewGenerator _ schema; GetSqlNode _ q; GetValidatedNode _;
       GetRelationalAlgebra _; GetOptimizedRelationalAlgebra _; GetDialect _] ++
      [Print _ (getRelationalAlgebraString _ _ _
                  (new_RelationalAlgebraGenerator schema) rel)] ++
      [Convert _].
Proof.
  cbn zeta. split; [reflexivity|].
  exact (successful_query_calls _ _ _ _ _ _ _
    python_to_sql_type new_RelationalAlgebraGenerator get_java_class
    getSelectList toSqlString RelConverter_convert ParsingException_init
    registered.1 "SELECT a + 1, b FROM t" true registered.2 _ 3 eq_refl).
Defined.

Lemma rejected_query_stops_witness :
  let e := SqlParseException "Encountered an unexpected token" in
  _prepare_schema python_to_sql_type registered.1 (store _ _ _ registered.2)
    = inr schema_t ∧
  getSqlNode _ _ _ (new_RelationalAlgebraGenerator schema_t) "SELEC" = inl e ∧
  getSqlNode _ _ _ (new_RelationalAlgebraGenerator schema_t) "" = inl e ∧
  (∃ x,
     run_sql registered.1 "SELEC" false registered.2 =
       (inl x, {| store := store _ _ _ registered.2;
                  trace := trace _ _ _ registered.2 ++
                           [NewGenerator _ schema_t; GetSqlNode _ "SELEC"] |}) ∧
     x = ParsingException _ "SELEC" "Encountered an unexpected token" None) ∧
  (∃ x,
     run_sql registered.1 "" false registered.2 =
       (inl x, {| store := store _ _ _ registered.2;
                  trace := trace _ _ _ registered.2 ++
                           [NewGenerator _ schema_t; GetSqlNode _ ""] |}) ∧
     x = PythonError _ "IndexError: list index out of range").
Proof.
  cbn zeta. split_and!; [reflexivity..| |].
  - exact (rejected_query_stops _ _ _ _ _ _ _
      python_to_sql_type new_RelationalAlgebraGenerator get_java_class
      getSelectList toSqlString RelConverter_convert ParsingException_init
      registered.1 "SELEC" false registered.2 schema_t
      (SqlParseException "Encountered an unexpected token") eq_refl eq_refl).
  - exact (rejected_query_stops _ _ _ _ _ _ _
      python_to_sql_type new_RelationalAlgebraGenerator get_java_class
      getSelectList toSqlString RelConverter_convert ParsingException_init
      registered.1 "" false registered.2 schema_t
      (SqlParseException "Encountered an unexpected token") eq_refl eq_refl).
Defined.

Lemma humanize_without_synthetic_names_witness :
  let dc := {| df := 2; column_container := ColumnContainer_of ["a"; "b"] |} in
  Forall (λ c, startswith c "EXPR$" = false) (cc_columns (column_container dc)) ∧
  humanize dc (Some ["`a`"; "`b`"]) = dc.
Proof.
  cbn zeta.
  assert (Hcols : Forall (λ c, startswith c "EXPR$" = false)
            (cc_columns (column_container
               {| df := 2; column_container := ColumnContainer_of ["a"; "b"] |}))).
  { by repeat constructor. }
  split; [exact Hcols|].
  exact (humanize_without_synthetic_names _ (Some ["`a`"; "`b`"]) Hcols).
Defined.

Lemma duplicate_names_last_pair_wins_witness :
  let dc := {| df := 2;
               column_container := ColumnContainer_of ["EXPR$0"; "EXPR$0"] |} in
  let cols := cc_columns (column_container dc) in
  cols !! 1 = Some "EXPR$0" ∧
  ["x"; "y"] !! 1 = Some "y" ∧
  (∀ k, 1 < k → cols !! k = Some "EXPR$0" → ["x"; "y"] !! k = None) ∧
  PyDict.get "EXPR$0" (rename_mapping cols ["x"; "y"]) = Some "y" ∧
  cc_columns (column_container (humanize dc (Some ["x"; "y"]))) !! 0 = Some "y".
Proof.
  cbn zeta.
  assert (Hlast : ∀ k, 1 < k →
            cc_columns (column_container
              {| df := 2; column_container := ColumnContainer_of ["EXPR$0"; "EXPR$0"] |})
              !! k = Some "EXPR$0" →
            ["x"; "y"] !! k = None).
  { intros [|[|k]] Hk _; [lia..|reflexivity]. }
  pose proof (duplicate_names_last_pair_wins
    {| df := 2; column_container := ColumnContainer_of ["EXPR$0"; "EXPR$0"] |}
    ["x"; "y"] 1 "EXPR$0" "y" eq_refl eq_refl Hlast) as [Hget Hall].
  split_and!; [reflexivity | reflexivity | exact Hlast | exact Hget |].
  exact (Hall 0 eq_refl).
Defined.

Lemma debug_does_not_change_result_witness :
  let q := "SELECT a + 1, b FROM t" in
  let r := run_sql registered.1 q true registered.2 in
  r = (inr 3, r.2) ∧
  ∃ w'', run_sql registered.1 q false registered.2 = (inr 3, w'') ∧
         store _ _ _ w'' = store _ _ _ r.2.
Proof.
  cbn zeta. split; [reflexivity|].
  exact (debug_does_not_change_result _ _ _ _ _ _ _
    python_to_sql_type new_RelationalAlgebraGenerator get_java_class
    getSelectList toSqlString RelConverter_convert ParsingException_init
    registered.1 "SELECT a + 1, b FROM t" true registered.2 _ 3 eq_refl).
Defined.

Lemma existing_dataframes_untouched_witness :
  let ops := [Sql DType Callable "SELECT a + 1, b FROM t" false;
              RegisterDaskTable _ _ 0 "u"] in
  converter_keeps_objects _ _ _ _ RelConverter_convert ∧
  allocated _ _ (store _ _ _ registered.2) 1 ∧
  allocated _ _ (store _ _ _ (run_ops ops registered.1 registered.2).2) 1 ∧
  deref (store _ _ _ (run_ops ops registered.1 registered.2).2) 1 =
    deref (store _ _ _ registered.2) 1.
Proof.
  cbn zeta.
  assert (Hl : allocated _ _ (store _ _ _ registered.2) 1)
    by (unfold allocated; vm_compute; lia).
  split_and!; [exact converter_keeps | exact Hl | |].
  - exact (proj1 (existing_dataframes_untouched _ _ _ _ _ _ _ lower
      python_to_sql_type new_RelationalAlgebraGenerator get_java_class
      getSelectList toSqlString RelConverter_convert ParsingException_init
      [Sql DType Callable "SELECT a + 1, b FROM t" false; RegisterDaskTable _ _ 0 "u"]
      registered.1 registered.2 1 converter_keeps Hl)).
  - exact (proj2 (existing_dataframes_untouched _ _ _ _ _ _ _ lower
      python_to_sql_type new_RelationalAlgebraGenerator get_java_class
      getSelectList toSqlString RelConverter_convert ParsingException_init
      [Sql DType Callable "SELECT a + 1, b FROM t" false; RegisterDaskTable _ _ 0 "u"]
      registered.1 registered.2 1 converter_keeps Hl)).
Defined.

Lemma registered_table_survives_witness :
  let ops := [Sql DType Callable "SELECT a + 1, b FROM t" false;
              RegisterDaskTable _ _ 0 "u";
              RegisterFunction _ _ "lambda" "T" [] "int64"] in
  let regs := [RegisterDaskTable DType Callable 0 "u";
               RegisterFunction _ _ "lambda" "T" [] "int64"] in
  converter_keeps_objects _ _ _ _ RelConverter_convert ∧
  Forall (λ op, is_query _ _ op = false) regs ∧
  Forall (λ op, registered_table_key _ _ lower op ≠ Some (lower "T")) regs ∧
  (∃ (self' : Context DType Callable) (w' : World DType SqlType SeriesData),
     register_dask_table lower init 0 "T" w0 = (inr self', w') ∧
     deref (store _ _ _ (run_ops ops self' w').2) (df (table_entry _ _ _ w0 0)) =
       deref (store _ _ _ w0) 0) ∧
  (∃ (self' : Context DType Callable) (w' : World DType SqlType SeriesData),
     register_dask_table lower init 0 "T" w0 = (inr self', w') ∧
     PyDict.get (lower "T") (tables _ _ (run_ops regs self' w').1) =
       Some (table_entry _ _ _ w0 0)).
Proof.
  cbn zeta.
  assert (Hnone : Forall (λ op, is_query _ _ op = false)
            [RegisterDaskTable DType Callable 0 "u";
             RegisterFunction _ _ "lambda" "T" [] "int64"]).
  { by repeat constructor. }
  assert (Hregs : Forall (λ op, registered_table_key _ _ lower op ≠ Some (lower "T"))
            [RegisterDaskTable DType Callable 0 "u";
             RegisterFunction _ _ "lambda" "T" [] "int64"]).
  { by repeat constructor. }
  split_and!; [exact converter_keeps | exact Hnone | exact Hregs | |].
  - destruct (registered_table_survives _ _ _ _ _ _ _ lower
      python_to_sql_type new_RelationalAlgebraGenerator get_java_class
      getSelectList toSqlString RelConverter_convert ParsingException_init
      [Sql DType Callable "SELECT a + 1, b FROM t" false;
       RegisterDaskTable _ _ 0 "u";
       RegisterFunction _ _ "lambda" "T" [] "int64"]
      init w0 0 "T" converter_keeps) as (self' & w' & Hreg & Hdata & _).
    exists self', w'. split; [exact Hreg | exact Hdata].
  - destruct (registered_table_survives _ _ _ _ _ _ _ lower
      python_to_sql_type new_RelationalAlgebraGenerator get_java_class
      getSelectList toSqlString RelConverter_convert ParsingException_init
      [RegisterDaskTable DType Callable 0 "u";
       RegisterFunction _ _ "lambda" "T" [] "int64"]
      init w0 0 "T" converter_keeps) as (self' & w' & Hreg & _ & Hentry).
    exists self', w'. split; [exact Hreg | exact (Hentry Hnone Hregs)].
Defined.

Lemma aligned_names_are_all_humanized_witness :
  let dc := {| df := 2; column_container := ColumnContainer_of ["EXPR$0"; "b"] |} in
  let cols := cc_columns (column_container dc) in
  NoDup cols ∧
  length cols ≤ length ["`a` + 1"; "`b`"] ∧
  renames_every_synthetic_name cols ["`a` + 1"; "`b`"]
    (cc_columns (column_container (humanize dc (Some ["`a` + 1"; "`b`"])))).
Proof.
  cbn zeta.
  assert (Hnd : NoDup (cc_columns (column_container
            {| df := 2; column_container := ColumnContainer_of ["EXPR$0"; "b"] |}))).
  { apply (bool_decide_unpack _). reflexivity. }
  assert (Hlen : length (cc_columns (column_container
            {| df := 2; column_container := ColumnContainer_of ["EXPR$0"; "b"] |}))
          ≤ length ["`a` + 1"; "`b`"]) by (cbn; lia).
  split_and!; [exact Hnd | exact Hlen |].
  exact (aligned_names_are_all_humanized _ _ Hnd Hlen).
Defined.

End Demo.
